(** * chemspax: generate_tetrahedron.py

    A shallow embedding of [src/generate_tetrahedron.py] (class [Complex])
    and the properties of its tetrahedral placement of three substituents.

    Numerical model.  The program computes with numpy [float64] arrays.
    They are modelled here by the real numbers of the Standard Library:
    every arithmetic operation is exact.  A three-element array is a
    [Point3], a 3x3 array a [Matrix3] (three rows).  Where numpy divides by
    zero and goes on with [nan], the real model goes on with [/ 0 = 0];
    every theorem that divides assumes the divisor is not zero, or says
    what it does without it.

    Rounding.  The real model stands for the program where the program
    differs from it by rounding only.  Two places of the program magnify
    the rounding of their input without bound: the factor [1 / (1 + c)] of
    the rotation matrix when [c] is close to -1, and [np.arccos] when its
    argument is close to 1 or -1.  Module [F64] repeats the arithmetic of
    the program on binary64 numbers, operation by operation, and the lemmas
    on it show what the program computes there: a matrix that is not a
    rotation, [RotationMatrixError] for a direction that is not (0,0,-1),
    a quotient above 1.  The theorems that state, for every input, that the
    matrix is a rotation, or the distances and angles that a rotation
    keeps, or the angle that [find_angle] returns, therefore assume a
    distance from these two places: [1 + c >= 1/10000] for the rotation,
    and a quotient of absolute value at most [1 - 1/1000000] for the
    angle.  There the program is within rounding of the real model
    ([Binary64.at_the_margin]).

    State.  [find_centroid] re-assigns [self.equilateral_triangle]; the
    methods are therefore functions from a [Complex] to a result and the
    [Complex] after the call. *)

From Stdlib Require Import Reals Lra Psatz RNsatz.
From Stdlib Require Import List String Ascii DecimalString Bool Arith Lia.
From Stdlib Require Floats.
Import ListNotations.

Open Scope R_scope.

(** ** numpy arrays of shape (3,) and (3,3) *)

Record Point3 : Type := mkPoint3 { p0 : R; p1 : R; p2 : R }.

Record Matrix3 : Type := mkMatrix3 { row0 : Point3; row1 : Point3; row2 : Point3 }.

Module Np.

(** [a + b], [a - b], [k * a], [a / k] on arrays of shape (3,) *)
Definition add (a b : Point3) : Point3 :=
  mkPoint3 (p0 a + p0 b) (p1 a + p1 b) (p2 a + p2 b).

Definition sub (a b : Point3) : Point3 :=
  mkPoint3 (p0 a - p0 b) (p1 a - p1 b) (p2 a - p2 b).

Definition scale (k : R) (a : Point3) : Point3 :=
  mkPoint3 (k * p0 a) (k * p1 a) (k * p2 a).

Definition div (a : Point3) (k : R) : Point3 :=
  mkPoint3 (p0 a / k) (p1 a / k) (p2 a / k).

Definition zeros : Point3 := mkPoint3 0 0 0.

(** [np.dot] of two vectors, [np.linalg.norm], [np.cross] *)
Definition dot (a b : Point3) : R :=
  p0 a * p0 b + p1 a * p1 b + p2 a * p2 b.

Definition norm (a : Point3) : R := sqrt (dot a a).

Definition cross (a b : Point3) : Point3 :=
  mkPoint3 (p1 a * p2 b - p2 a * p1 b)
           (p2 a * p0 b - p0 a * p2 b)
           (p0 a * p1 b - p1 a * p0 b).

(** arrays of shape (3,3): [np.eye(3)], [m + n], [m * k], [k * m] *)
Definition eye : Matrix3 :=
  mkMatrix3 (mkPoint3 1 0 0) (mkPoint3 0 1 0) (mkPoint3 0 0 1).

Definition madd (m n : Matrix3) : Matrix3 :=
  mkMatrix3 (add (row0 m) (row0 n)) (add (row1 m) (row1 n)) (add (row2 m) (row2 n)).

Definition mscale (k : R) (m : Matrix3) : Matrix3 :=
  mkMatrix3 (scale k (row0 m)) (scale k (row1 m)) (scale k (row2 m)).

Definition col0 (m : Matrix3) : Point3 := mkPoint3 (p0 (row0 m)) (p0 (row1 m)) (p0 (row2 m)).
Definition col1 (m : Matrix3) : Point3 := mkPoint3 (p1 (row0 m)) (p1 (row1 m)) (p1 (row2 m)).
Definition col2 (m : Matrix3) : Point3 := mkPoint3 (p2 (row0 m)) (p2 (row1 m)) (p2 (row2 m)).

Definition transpose (m : Matrix3) : Matrix3 := mkMatrix3 (col0 m) (col1 m) (col2 m).

(** [np.dot(m, t)] for a matrix and a vector *)
Definition mvdot (m : Matrix3) (t : Point3) : Point3 :=
  mkPoint3 (dot (row0 m) t) (dot (row1 m) t) (dot (row2 m) t).

(** [np.dot(m, n)] for two matrices *)
Definition mdot (m n : Matrix3) : Matrix3 :=
  mkMatrix3 (mkPoint3 (dot (row0 m) (col0 n)) (dot (row0 m) (col1 n)) (dot (row0 m) (col2 n)))
            (mkPoint3 (dot (row1 m) (col0 n)) (dot (row1 m) (col1 n)) (dot (row1 m) (col2 n)))
            (mkPoint3 (dot (row2 m) (col0 n)) (dot (row2 m) (col1 n)) (dot (row2 m) (col2 n))).

(** determinant of a 3x3 array, by expansion along the first row
    (the program never computes it; the specification speaks of it) *)
Definition det (m : Matrix3) : R := dot (row0 m) (cross (row1 m) (row2 m)).

End Np.

(** ** The computation context *)

(** One row of the table read from the .xyz file: columns atom, x, y, z. *)
Record LabeledAtom : Type := mkAtom { atom : string; xyz : Point3 }.

(** The attributes that [Complex.__init__] sets. *)
Record Complex : Type := mkComplex {
  path : string;
  data_matrix : list LabeledAtom;
  atom_to_be_functionalized_index : nat;
  atom_to_be_functionalized_xyz : Point3;
  bonded_atom_index : nat;
  bonded_atom_xyz : Point3;
  bond_length : Point3;
  bond_length_norm : Point3;
  equilateral_triangle : Matrix3
}.

(** [RotationMatrixError] is the exception of the [exceptions] module that
    the program raises; [KeyError] and [IndexError] are the exceptions of
    [data_matrix.loc[i, ...]] without a row [i] and of [lines[last]] on an
    empty list. *)
Inductive Exception : Type := RotationMatrixError | KeyError | IndexError.

Inductive Result (A : Type) : Type :=
| Ok (a : A)
| Raise (e : Exception).
Arguments Ok {A} a.
Arguments Raise {A} e.

(** The array literal of [__init__]: an equilateral triangle with its
    centroid at the origin, in the plane z = 0. *)
Definition canonical_triangle : Matrix3 :=
  mkMatrix3 (mkPoint3 0 (1 / sqrt 3.0) 0)
            (mkPoint3 (- 0.5) (- 0.5 / sqrt 3.0) 0)
            (mkPoint3 0.5 (- 0.5 / sqrt 3.0) 0).

(** [Complex.__init__].  [pd.read_table] is the reader of the file format,
    outside this program: the table it returns is the argument [table].
    [data_matrix.loc[i, ...]] raises when the table has no row [i];
    [None] stands for that. *)
Definition init (path_to_data : string) (table : list LabeledAtom) : option Complex :=
  match nth_error table 0%nat, nth_error table 1%nat with
  | Some functionalized, Some bonded =>
      Some (mkComplex path_to_data table
              0%nat (xyz functionalized)
              1%nat (xyz bonded)
              (Np.sub (xyz functionalized) (xyz bonded))
              (Np.div (Np.sub (xyz functionalized) (xyz bonded))
                      (Np.norm (Np.sub (xyz functionalized) (xyz bonded))))
              canonical_triangle)
  | _, _ => None
  end.

(** [Complex.distance] *)
Definition distance (a b : Point3) : R :=
  let d := Np.sub a b in
  sqrt ((p0 d) ^ 2 + (p1 d) ^ 2 + (p2 d) ^ 2).

(** [Complex.find_angle].  [np.arccos] is [acos] on the interval from -1
    to 1; outside it numpy returns nan, and the program does not clip the
    quotient.  In binary64 the quotient of two parallel vectors can round
    to a value above 1 ([F64.cos_th], lemma [Binary64.quotient_above_one]),
    and next to 1 and -1 the angle itself is lost to rounding.  This
    definition stands for the program for quotients away from 1 and -1;
    the properties of [find_angle] that need more than the symmetry of the
    quotient or its being 0 are stated there. *)
Definition find_angle (v1 v2 : Point3) : R :=
  let cos_th := (p0 v1 * p0 v2 + p1 v1 * p1 v2 + p2 v1 * p2 v2)
                / (Np.norm v1 * Np.norm v2) in
  acos cos_th * 57.29577951308232.

(** The assignment [self.equilateral_triangle = ...]: every other
    attribute keeps its value. *)
Definition set_equilateral_triangle (self : Complex) (t : Matrix3) : Complex :=
  mkComplex (path self) (data_matrix self)
            (atom_to_be_functionalized_index self) (atom_to_be_functionalized_xyz self)
            (bonded_atom_index self) (bonded_atom_xyz self)
            (bond_length self) (bond_length_norm self) t.

(** [Complex.find_centroid]: the returned centroid and the context after
    the call. *)
Definition find_centroid (self : Complex) : Point3 * Complex :=
  let b := Np.norm (bond_length self) in
  let b := b * (2.0 * sqrt (2.0 / 3.0)) in
  let self := set_equilateral_triangle self (Np.mscale b (equilateral_triangle self)) in
  let centroid := Np.add (atom_to_be_functionalized_xyz self)
                         (Np.scale (b / 3.0) (bond_length_norm self)) in
  (centroid, self).

(** The locals of [generate_substituent_vectors]. *)
Definition normal_vector : Point3 :=
  Np.div (mkPoint3 0 0 1) (Np.norm (mkPoint3 0 0 1)).

Definition starting_coordinate : Point3 := Np.zeros.

(** [v_x]: the cross-product matrix of [v] *)
Definition v_x (v : Point3) : Matrix3 :=
  mkMatrix3 (mkPoint3 0 (- p2 v) (p1 v))
            (mkPoint3 (p2 v) 0 (- p0 v))
            (mkPoint3 (- p1 v) (p0 v) 0).

(** [c = np.dot(bond_length_norm.T, normal_vector.T)] *)
Definition cosine (bond_length_norm : Point3) : R :=
  Np.dot bond_length_norm normal_vector.

(** Lines 61-68: the rotation matrix, or [RotationMatrixError].  The
    comparison [c != -1.0] and the factor [1 / (1 + c)] are taken on the
    exact [c] here and on the rounded [c] in the program
    ([F64.rotation_matrix]).  The two agree up to rounding while [1 + c] is
    not small; the rounding of the unit direction, about 1e-16, is divided
    by [1 + c].  For a direction close to (0,0,-1) the program returns a
    matrix that is not orthogonal, or raises although the direction is not
    (0,0,-1); with [1 + c] at 1/10000 its matrix is orthogonal within
    1e-11 (module [Binary64]: [Binary64.raises_beside_singular],
    [Binary64.at_the_margin]). *)
Definition rotation_matrix (bond_length_norm : Point3) : Result Matrix3 :=
  let v := Np.cross normal_vector bond_length_norm in
  let v_xsq := Np.mdot (v_x v) (v_x v) in
  let c := cosine bond_length_norm in
  match Req_dec_T c (- 1.0) with
  | right _ (* c != -1.0 *) =>
      Ok (Np.madd (Np.madd Np.eye (v_x v)) (Np.mscale (1 / (1 + c)) v_xsq))
  | left _ => Raise RotationMatrixError
  end.

(** The body of the loop of lines 73-75 for one row [t] of the triangle. *)
Definition place (centroid : Point3) (rotation : Matrix3) (t : Point3) : Point3 :=
  Np.add (Np.sub centroid starting_coordinate) (Np.mvdot rotation t).

(** [Complex.generate_substituent_vectors]: the three points or the
    exception, and the context after the call.  The loop runs over the
    three rows of the triangle. *)
Definition generate_substituent_vectors (self : Complex)
  : Result (Point3 * Point3 * Point3) * Complex :=
  let '(centroid, self) := find_centroid self in
  match rotation_matrix (bond_length_norm self) with
  | Ok rotation =>
      let substituent_vectors :=
        mkMatrix3 (place centroid rotation (row0 (equilateral_triangle self)))
                  (place centroid rotation (row1 (equilateral_triangle self)))
                  (place centroid rotation (row2 (equilateral_triangle self))) in
      (Ok (row0 substituent_vectors, row1 substituent_vectors, row2 substituent_vectors), self)
  | Raise e => (Raise e, self)
  end.

(** ** Running the method twice on one context *)

(** [r1 = self.generate_substituent_vectors()] followed by
    [r2 = self.generate_substituent_vectors()] on the same object. *)
Definition generate_twice (self : Complex)
  : Result (Point3 * Point3 * Point3) * Result (Point3 * Point3 * Point3) :=
  let '(r1, self) := generate_substituent_vectors self in
  let '(r2, self) := generate_substituent_vectors self in
  (r1, r2).

(** [self.find_centroid()] called [n] times in a row on one context: the
    context after the calls. *)
Fixpoint find_centroid_times (n : nat) (self : Complex) : Complex :=
  match n with
  | O => self
  | S n => snd (find_centroid (find_centroid_times n self))
  end.

(** ** Files *)

(** The content of a file is a list of characters.  The file system maps a
    file name to the content of the file, if there is one. *)
Definition FileSystem : Type := string -> option (list ascii).

Definition LF : ascii := "010"%char.
Definition CR : ascii := "013"%char.

Definition content (fs : FileSystem) (filename : string) : list ascii :=
  match fs filename with Some c => c | None => [] end.

Definition store (fs : FileSystem) (filename : string) (c : list ascii) : FileSystem :=
  fun name => if String.eqb name filename then Some c else fs name.

(** [open(filename, 'a')] and [write(data)]: the file is created when it
    does not exist, and the data go behind what it holds. *)
Definition append (fs : FileSystem) (filename : string) (data : list ascii) : FileSystem :=
  store fs filename (content fs filename ++ data).

(** [open(filename, 'w')] and [writelines(lines)] *)
Definition writelines (fs : FileSystem) (filename : string) (lines : list (list ascii))
  : FileSystem :=
  store fs filename (List.concat lines).

(** Reading in text mode ([open(filename)], newline=None): the line ends
    CR LF and CR arrive as LF. *)
Fixpoint universal_newlines (s : list ascii) : list ascii :=
  match s with
  | [] => []
  | c :: rest =>
      if Ascii.eqb c CR then
        match rest with
        | d :: rest' =>
            if Ascii.eqb d LF then LF :: universal_newlines rest'
            else LF :: universal_newlines rest
        | [] => [LF]
        end
      else c :: universal_newlines rest
  end.

(** The lines of a text, each with its LF. *)
Fixpoint keepends (s : list ascii) : list (list ascii) :=
  match s with
  | [] => []
  | c :: rest =>
      if Ascii.eqb c LF then [c] :: keepends rest
      else match keepends rest with
           | [] => [[c]]
           | line :: lines => (c :: line) :: lines
           end
  end.

(** [f.readlines()] *)
Definition readlines (fs : FileSystem) (filename : string) : list (list ascii) :=
  keepends (universal_newlines (content fs filename)).

(** [line.replace('\r', '').replace('\n', '')] *)
Definition strip_newlines (line : list ascii) : list ascii :=
  filter (fun c => negb (Ascii.eqb c LF)) (filter (fun c => negb (Ascii.eqb c CR)) line).

(** [lines[len(lines) - 1] = f(lines[len(lines) - 1])] on a non-empty list *)
Fixpoint update_last (f : list ascii -> list ascii) (lines : list (list ascii))
  : list (list ascii) :=
  match lines with
  | [] => []
  | [line] => [f line]
  | line :: rest => line :: update_last f rest
  end.

(** [str(n)] for a natural number *)
Definition str (n : nat) : list ascii :=
  list_ascii_of_string (NilEmpty.string_of_uint (Nat.to_uint n)).

(** [sub in s] for two strings *)
Fixpoint contains (sub s : string) : bool :=
  if String.prefix sub s then true
  else match s with
       | EmptyString => false
       | String _ rest => contains sub rest
       end.

(** The call of [visualize_xyz_file] that ends [write_xyz]: the file, the
    flag [save_file] and the third argument when there is one.  The viewer
    is the [utilities] module; it consumes the finished file. *)
Record ViewerCall : Type := mkViewerCall {
  viewed : string;
  viewer_save_file : bool;
  viewer_manually_generated : option bool
}.

Section Writer.

(** What [to_csv] of pandas writes for a field of the index column (a
    label, quoted when the csv dialect asks for it) and for a float. *)
Variable csv_label : string -> list ascii.
Variable csv_float : R -> list ascii.

(** One row of [to_csv(sep=' ', header=False)], without its line end. *)
Definition csv_row (a : LabeledAtom) : list ascii :=
  csv_label (atom a) ++ [" "%char] ++ csv_float (p0 (xyz a)) ++ [" "%char]
  ++ csv_float (p1 (xyz a)) ++ [" "%char] ++ csv_float (p2 (xyz a)).

(** [write_data.to_csv(filename, sep=' ', header=False, mode='a')] *)
Definition to_csv (fs : FileSystem) (filename : string) (write_data : list LabeledAtom)
  : FileSystem :=
  append fs filename (List.concat (map (fun a => csv_row a ++ [LF]) write_data)).

(** Lines 113-123 *)
Definition viewer_call (filename : string) (view_file save_file : bool) : ViewerCall :=
  if contains "manually_generated" filename && view_file && save_file
  then mkViewerCall filename save_file (Some true)
  else if contains "manually_generated" filename && view_file && negb save_file
  then mkViewerCall filename save_file (Some true)
  else if contains "automatically_generated" filename && view_file && save_file
  then mkViewerCall filename save_file (Some false)
  else if contains "automatically_generated" filename && view_file && negb save_file
  then mkViewerCall filename save_file (Some false)
  else mkViewerCall filename false None.

(** [Complex.write_xyz]: the call of the viewer or the exception, the file
    system after the call and the context after the call. *)
Definition write_xyz (self : Complex) (fs : FileSystem) (filename : string)
    (substituent_1_atom substituent_2_atom substituent_3_atom : string)
    (view_file save_file : bool)
  : Result ViewerCall * FileSystem * Complex :=
  let '(r, self) := generate_substituent_vectors self in
  match r with
  | Raise e => (Raise e, fs, self)
  | Ok (v_1, v_2, v_3) =>
      match nth_error (data_matrix self) (atom_to_be_functionalized_index self),
            nth_error (data_matrix self) (bonded_atom_index self) with
      | Some atom_to_be_functionalized, Some bonded_atom =>
          let substituent_1 := mkAtom substituent_1_atom v_1 in
          let substituent_2 := mkAtom substituent_2_atom v_2 in
          let substituent_3 := mkAtom substituent_3_atom v_3 in
          let write_data := [bonded_atom; atom_to_be_functionalized;
                             substituent_1; substituent_2; substituent_3] in
          let n_atoms := 5%nat in
          let fs := append fs filename (str n_atoms ++ [LF]) in
          let fs := append fs filename (str (bonded_atom_index self) ++ [LF]) in
          let fs := to_csv fs filename write_data in
          let lines := readlines fs filename in
          match lines with
          | [] => (Raise IndexError, fs, self)
          | _ :: _ =>
              let lines := update_last strip_newlines lines in
              let fs := writelines fs filename lines in
              (Ok (viewer_call filename view_file save_file), fs, self)
          end
      | _, _ => (Raise KeyError, fs, self)
      end
  end.

(** The two header lines and the five records, without the last line end. *)
Definition xyz_block (index : nat) (r1 r2 r3 r4 r5 : LabeledAtom) : list ascii :=
  str 5 ++ [LF] ++ str index ++ [LF]
  ++ csv_row r1 ++ [LF]
  ++ csv_row r2 ++ [LF]
  ++ csv_row r3 ++ [LF]
  ++ csv_row r4 ++ [LF]
  ++ csv_row r5.

End Writer.

Section Script.

Variable csv_label : string -> list ascii.
Variable csv_float : R -> list ascii.

(** [self.write_xyz(filename, a1, a2, a3, view_file, save_file)] called
    twice in a row on one context, with the same arguments. *)
Definition write_xyz_twice (self : Complex) (fs : FileSystem) (filename : string)
    (a1 a2 a3 : string) (view_file save_file : bool)
  : Result ViewerCall * FileSystem * Complex :=
  let '(_, fs, self) :=
    write_xyz csv_label csv_float self fs filename a1 a2 a3 view_file save_file in
  write_xyz csv_label csv_float self fs filename a1 a2 a3 view_file save_file.


End Script.

(** ** The arithmetic of the program on binary64 numbers *)

(** Lines 29-30, 35-38, 42, 45-50 and 52-76 once more, on the binary64
    numbers of IEEE 754 ([PrimFloat]) in place of the reals: every sum,
    difference, product, quotient and square root is rounded to the nearest
    binary64 number, a sum of three products is taken from left to right,
    and [c != -1.0] compares the rounded [c].  The two atoms and the
    triangle are the arguments; [None] stands for [RotationMatrixError].
    [np.arccos] has no counterpart in [PrimFloat]: of [find_angle] the
    module has the quotient [cos_th] that the program hands to it. *)
Module F64.

Import Floats.
Local Open Scope float_scope.
Local Set Warnings "-inexact-float".

Record Point3 : Type := mkPoint3 { p0 : float; p1 : float; p2 : float }.

Record Matrix3 : Type := mkMatrix3 { row0 : Point3; row1 : Point3; row2 : Point3 }.

Definition add (a b : Point3) : Point3 :=
  mkPoint3 (p0 a + p0 b) (p1 a + p1 b) (p2 a + p2 b).

Definition sub (a b : Point3) : Point3 :=
  mkPoint3 (p0 a - p0 b) (p1 a - p1 b) (p2 a - p2 b).

Definition scale (k : float) (a : Point3) : Point3 :=
  mkPoint3 (k * p0 a) (k * p1 a) (k * p2 a).

Definition div (a : Point3) (k : float) : Point3 :=
  mkPoint3 (p0 a / k) (p1 a / k) (p2 a / k).

Definition zeros : Point3 := mkPoint3 0 0 0.

Definition dot (a b : Point3) : float :=
  p0 a * p0 b + p1 a * p1 b + p2 a * p2 b.

Definition norm (a : Point3) : float := sqrt (dot a a).

Definition cross (a b : Point3) : Point3 :=
  mkPoint3 (p1 a * p2 b - p2 a * p1 b)
           (p2 a * p0 b - p0 a * p2 b)
           (p0 a * p1 b - p1 a * p0 b).

Definition eye : Matrix3 :=
  mkMatrix3 (mkPoint3 1 0 0) (mkPoint3 0 1 0) (mkPoint3 0 0 1).

Definition madd (m n : Matrix3) : Matrix3 :=
  mkMatrix3 (add (row0 m) (row0 n)) (add (row1 m) (row1 n)) (add (row2 m) (row2 n)).

Definition mscale (k : float) (m : Matrix3) : Matrix3 :=
  mkMatrix3 (scale k (row0 m)) (scale k (row1 m)) (scale k (row2 m)).

Definition col0 (m : Matrix3) : Point3 := mkPoint3 (p0 (row0 m)) (p0 (row1 m)) (p0 (row2 m)).
Definition col1 (m : Matrix3) : Point3 := mkPoint3 (p1 (row0 m)) (p1 (row1 m)) (p1 (row2 m)).
Definition col2 (m : Matrix3) : Point3 := mkPoint3 (p2 (row0 m)) (p2 (row1 m)) (p2 (row2 m)).

Definition transpose (m : Matrix3) : Matrix3 := mkMatrix3 (col0 m) (col1 m) (col2 m).

Definition mvdot (m : Matrix3) (t : Point3) : Point3 :=
  mkPoint3 (dot (row0 m) t) (dot (row1 m) t) (dot (row2 m) t).

Definition mdot (m n : Matrix3) : Matrix3 :=
  mkMatrix3 (mkPoint3 (dot (row0 m) (col0 n)) (dot (row0 m) (col1 n)) (dot (row0 m) (col2 n)))
            (mkPoint3 (dot (row1 m) (col0 n)) (dot (row1 m) (col1 n)) (dot (row1 m) (col2 n)))
            (mkPoint3 (dot (row2 m) (col0 n)) (dot (row2 m) (col1 n)) (dot (row2 m) (col2 n))).

(** lines 31-33 *)
Definition canonical_triangle : Matrix3 :=
  mkMatrix3 (mkPoint3 0 (1 / sqrt 3.0) 0)
            (mkPoint3 (- 0.5) (- 0.5 / sqrt 3.0) 0)
            (mkPoint3 0.5 (- 0.5 / sqrt 3.0) 0).

(** lines 29-30 *)
Definition bond_length (functionalized bonded : Point3) : Point3 :=
  sub functionalized bonded.

Definition bond_length_norm (functionalized bonded : Point3) : Point3 :=
  div (bond_length functionalized bonded) (norm (bond_length functionalized bonded)).

(** lines 35-38; [d ** 2] is the rounded product of [d] with itself *)
Definition distance (a b : Point3) : float :=
  let d := sub a b in
  sqrt (p0 d * p0 d + p1 d * p1 d + p2 d * p2 d).

(** line 42 *)
Definition cos_th (v1 v2 : Point3) : float :=
  (p0 v1 * p0 v2 + p1 v1 * p1 v2 + p2 v1 * p2 v2) / (norm v1 * norm v2).

(** lines 45-50: the centroid and the triangle after the call *)
Definition find_centroid (functionalized bonded : Point3) (triangle : Matrix3)
  : Point3 * Matrix3 :=
  let b := norm (bond_length functionalized bonded) in
  let b := b * (2.0 * sqrt (2.0 / 3.0)) in
  let triangle := mscale b triangle in
  let centroid :=
    add functionalized (scale (b / 3.0) (bond_length_norm functionalized bonded)) in
  (centroid, triangle).

(** lines 54-68 *)
Definition normal_vector : Point3 :=
  div (mkPoint3 0 0 1) (norm (mkPoint3 0 0 1)).

Definition v_x (v : Point3) : Matrix3 :=
  mkMatrix3 (mkPoint3 0 (- p2 v) (p1 v))
            (mkPoint3 (p2 v) 0 (- p0 v))
            (mkPoint3 (- p1 v) (p0 v) 0).

Definition cosine (bond_length_norm : Point3) : float :=
  dot bond_length_norm normal_vector.

Definition rotation_matrix (bond_length_norm : Point3) : option Matrix3 :=
  let v := cross normal_vector bond_length_norm in
  let v_xsq := mdot (v_x v) (v_x v) in
  let c := cosine bond_length_norm in
  if c =? - 1.0
  then None
  else Some (madd (madd eye (v_x v)) (mscale (1 / (1 + c)) v_xsq)).

(** lines 70-76 *)
Definition place (centroid : Point3) (rotation : Matrix3) (t : Point3) : Point3 :=
  add (sub centroid zeros) (mvdot rotation t).

Definition generate_substituent_vectors (functionalized bonded : Point3) (triangle : Matrix3)
  : option (Point3 * Point3 * Point3) :=
  let '(centroid, triangle) := find_centroid functionalized bonded triangle in
  match rotation_matrix (bond_length_norm functionalized bonded) with
  | Some rotation =>
      Some (place centroid rotation (row0 triangle),
            place centroid rotation (row1 triangle),
            place centroid rotation (row2 triangle))
  | None => None
  end.

(** Comparison up to a tolerance: [abs (x - y) <= tol], for two numbers and
    for every entry of two matrices. *)
Definition close (tol x y : float) : bool := abs (x - y) <=? tol.

Definition pclose (tol : float) (a b : Point3) : bool :=
  close tol (p0 a) (p0 b) && close tol (p1 a) (p1 b) && close tol (p2 a) (p2 b).

Definition mclose (tol : float) (m n : Matrix3) : bool :=
  pclose tol (row0 m) (row0 n) && pclose tol (row1 m) (row1 n) && pclose tol (row2 m) (row2 n).

(** What the real model proves of a pair of atoms, tested on the numbers
    of the program up to [tol]: the program builds the matrix R and returns
    three points; R R^T is the identity and R (0,0,1) the bond direction;
    the points are s = L * (2 * sqrt(2/3)) from one another and equally far
    from the bonded atom. *)
Definition as_the_model (tol : float) (functionalized bonded : Point3) : bool :=
  let u := bond_length_norm functionalized bonded in
  let s := norm (bond_length functionalized bonded) * (2.0 * sqrt (2.0 / 3.0)) in
  match rotation_matrix u,
        generate_substituent_vectors functionalized bonded canonical_triangle with
  | Some R, Some (s1, s2, s3) =>
      mclose tol (mdot R (transpose R)) eye
      && pclose tol (mvdot R (mkPoint3 0 0 1)) u
      && close tol (distance s1 s2) s
      && close tol (distance s1 s3) s
      && close tol (distance s2 s3) s
      && close tol (distance bonded s1) (distance bonded s2)
      && close tol (distance bonded s2) (distance bonded s3)
  | _, _ => false
  end.

(** Inputs.  The central atom at the origin with the bonded atom at
    (1,0,0); at (0.0142,0,1), where 1 + c is 1.008/10000; at (1e-7,0,1) and
    at (1e-9,0,1), beside the singular position (0,0,1).  The central atom
    at (0.3,-1.2,2.5) with the bonded atom at (0.312,-1.191,3.5), where
    1 + c is 1.125/10000. *)
Definition origin : Point3 := mkPoint3 0 0 0.

Definition aside : Point3 := mkPoint3 1 0 0.

Definition at_the_margin : Point3 := mkPoint3 0.0142 0 1.

Definition beside_singular : Point3 := mkPoint3 1e-7 0 1.

Definition next_to_singular : Point3 := mkPoint3 1e-9 0 1.

Definition central : Point3 := mkPoint3 0.3 (- 1.2) 2.5.

Definition tilted : Point3 := mkPoint3 0.312 (- 1.191) 3.5.

End F64.

(** ** Definitions for the statements *)

(** The matrix of the branch [c != -1.0]. *)
Definition rodrigues (u : Point3) : Matrix3 :=
  Np.madd (Np.madd Np.eye (v_x (Np.cross normal_vector u)))
          (Np.mscale (1 / (1 + cosine u))
                     (Np.mdot (v_x (Np.cross normal_vector u)) (v_x (Np.cross normal_vector u)))).

(** The bond length [L] and the factor [s] of [find_centroid]. *)
Definition bond_norm (self : Complex) : R := Np.norm (bond_length self).

Definition edge (self : Complex) : R := bond_norm self * (2.0 * sqrt (2.0 / 3.0)).

(** The six distances among bondedAtom and the three returned points,
    as claim C2 wants them: all equal to [l]. *)
Definition regular_tetrahedron (l : R) (b s1 s2 s3 : Point3) : Prop :=
  distance b s1 = l /\ distance b s2 = l /\ distance b s3 = l /\
  distance s1 s2 = l /\ distance s1 s3 = l /\ distance s2 s3 = l.

(** Every attribute but [equilateral_triangle] has the same value in both. *)
Definition same_but_triangle (self self' : Complex) : Prop :=
  path self' = path self /\
  data_matrix self' = data_matrix self /\
  atom_to_be_functionalized_index self' = atom_to_be_functionalized_index self /\
  atom_to_be_functionalized_xyz self' = atom_to_be_functionalized_xyz self /\
  bonded_atom_index self' = bonded_atom_index self /\
  bonded_atom_xyz self' = bonded_atom_xyz self /\
  bond_length self' = bond_length self /\
  bond_length_norm self' = bond_length_norm self.

(** No character of the text is a line end. *)
Definition no_line_end (s : list ascii) : Prop :=
  Forall (fun c => c <> CR /\ c <> LF) s.

Definition no_CR (s : list ascii) : Prop := Forall (fun c => c <> CR) s.

(** The text does not begin with LF. *)
Definition no_leading_LF (s : list ascii) : Prop :=
  match s with
  | [] => True
  | c :: _ => c <> LF
  end.

(** Every character of the text is a 7-bit ASCII character.  [open(filename)]
    decodes the bytes of the file in the encoding of the locale and raises
    [UnicodeDecodeError] on bytes that do not decode; the file model keeps
    the bytes as they are, so it stands for the program on content that
    decodes.  7-bit content decodes in every encoding a locale offers. *)
Definition seven_bit (s : list ascii) : Prop :=
  Forall (fun c => (nat_of_ascii c < 128)%nat) s.

(** ** Concrete inputs *)

Definition methyl_table : list LabeledAtom :=
  [mkAtom "C" (mkPoint3 0 0 0); mkAtom "H" (mkPoint3 1 0 0)].

Definition methyl : Complex :=
  mkComplex "CH3.xyz" methyl_table
            0%nat (mkPoint3 0 0 0) 1%nat (mkPoint3 1 0 0)
            (Np.sub (mkPoint3 0 0 0) (mkPoint3 1 0 0))
            (Np.div (Np.sub (mkPoint3 0 0 0) (mkPoint3 1 0 0))
                    (Np.norm (Np.sub (mkPoint3 0 0 0) (mkPoint3 1 0 0))))
            canonical_triangle.

(** The singular input of the specification: bonded atom at (0,0,1). *)
Definition singular_table : list LabeledAtom :=
  [mkAtom "C" (mkPoint3 0 0 0); mkAtom "H" (mkPoint3 0 0 1)].

(** Labels written as they are, every float written as 0: stand-ins for
    the formatting of pandas in the concrete runs below. *)
Definition plain_label (s : string) : list ascii := list_ascii_of_string s.

Definition zero_float (x : R) : list ascii := ["0"%char].

Definition no_files : FileSystem := fun _ => None.

(** An output file that exists already and holds one line ended by CR LF. *)
Definition old_text : list ascii := ["x"%char; CR; LF].

Definition old_file : FileSystem :=
  fun name => if String.eqb name "CH4.xyz" then Some old_text else None.

(** Bonded atom straight above the central atom, and straight below it. *)
Definition singular : Complex :=
  mkComplex "CH3.xyz" singular_table
            0%nat (mkPoint3 0 0 0) 1%nat (mkPoint3 0 0 1)
            (Np.sub (mkPoint3 0 0 0) (mkPoint3 0 0 1))
            (Np.div (Np.sub (mkPoint3 0 0 0) (mkPoint3 0 0 1))
                    (Np.norm (Np.sub (mkPoint3 0 0 0) (mkPoint3 0 0 1))))
            canonical_triangle.

Definition hanging_table : list LabeledAtom :=
  [mkAtom "C" (mkPoint3 0 0 0); mkAtom "H" (mkPoint3 0 0 (-1))].

Definition hanging : Complex :=
  mkComplex "CH3.xyz" hanging_table
            0%nat (mkPoint3 0 0 0) 1%nat (mkPoint3 0 0 (-1))
            (Np.sub (mkPoint3 0 0 0) (mkPoint3 0 0 (-1)))
            (Np.div (Np.sub (mkPoint3 0 0 0) (mkPoint3 0 0 (-1)))
                    (Np.norm (Np.sub (mkPoint3 0 0 0) (mkPoint3 0 0 (-1)))))
            canonical_triangle.

(** Two unit vectors. *)
Definition e_x : Point3 := mkPoint3 1 0 0.
Definition e_y : Point3 := mkPoint3 0 1 0.

(** * Properties *)

(** ** Arithmetic of the constants *)

Lemma sqrt3_sq : sqrt 3.0 * sqrt 3.0 = 3.
Proof. rewrite sqrt_sqrt; lra. Qed.

Lemma sqrt23_sq : sqrt (2.0 / 3.0) * sqrt (2.0 / 3.0) = 2 / 3.
Proof. rewrite sqrt_sqrt; lra. Qed.

Lemma sqrt23_pos : 0 < sqrt (2.0 / 3.0).
Proof. apply sqrt_lt_R0; lra. Qed.

(** ** Vectors: equality, norm, distance *)

Lemma point3_eq (a b : Point3) :
  p0 a = p0 b -> p1 a = p1 b -> p2 a = p2 b -> a = b.
Proof. destruct a, b; simpl; intros -> -> ->; reflexivity. Qed.

Lemma dot_self_nonneg (a : Point3) : 0 <= Np.dot a a.
Proof. unfold Np.dot; nra. Qed.

Lemma norm_sq (a : Point3) : Np.norm a * Np.norm a = Np.dot a a.
Proof. unfold Np.norm; apply sqrt_sqrt, dot_self_nonneg. Qed.

Lemma norm_nonneg (a : Point3) : 0 <= Np.norm a.
Proof. apply sqrt_pos. Qed.

Lemma norm_zero_iff (a : Point3) : Np.norm a = 0 <-> a = Np.zeros.
Proof.
  split.
  - intros H. apply sqrt_eq_0 in H; [| apply dot_self_nonneg].
    unfold Np.dot in H. apply point3_eq; simpl; nra.
  - intros ->. unfold Np.norm, Np.dot; simpl.
    replace (0 * 0 + 0 * 0 + 0 * 0) with 0 by ring. apply sqrt_0.
Qed.

Lemma sub_zero_iff (a b : Point3) : Np.sub a b = Np.zeros <-> a = b.
Proof.
  split.
  - intros H. apply point3_eq.
    + apply (f_equal p0) in H; simpl in H; lra.
    + apply (f_equal p1) in H; simpl in H; lra.
    + apply (f_equal p2) in H; simpl in H; lra.
  - intros ->. apply point3_eq; simpl; ring.
Qed.

(** [distance a b] is the numpy norm of [a - b]. *)
Lemma distance_norm (a b : Point3) : distance a b = Np.norm (Np.sub a b).
Proof. unfold distance, Np.norm, Np.dot; f_equal; ring. Qed.

Lemma distance_sq (a b : Point3) :
  distance a b * distance a b = Np.dot (Np.sub a b) (Np.sub a b).
Proof. rewrite distance_norm; apply norm_sq. Qed.

Lemma distance_nonneg (a b : Point3) : 0 <= distance a b.
Proof. rewrite distance_norm; apply norm_nonneg. Qed.

(** Two non-negative reals with equal squares are equal. *)
Lemma sq_eq_nonneg (x y : R) : 0 <= x -> 0 <= y -> x * x = y * y -> x = y.
Proof. intros; nra. Qed.

(** A vector divided by its non-zero norm has unit length. *)
Lemma unit_direction (b : Point3) :
  Np.norm b <> 0 -> Np.dot (Np.div b (Np.norm b)) (Np.div b (Np.norm b)) = 1.
Proof.
  intros Hn. pose proof (norm_sq b) as Hs.
  unfold Np.dot in *; simpl. unfold Rdiv.
  set (n := Np.norm b) in *.
  assert (Hi : n * / n = 1) by (apply Rinv_r; exact Hn).
  set (i := / n) in *. nsatz.
Qed.

(** ** The rotation matrix *)

Lemma normal_vector_eq : normal_vector = mkPoint3 0 0 1.
Proof.
  unfold normal_vector, Np.norm, Np.dot, Np.div; simpl.
  replace (0 * 0 + 0 * 0 + 1 * 1) with 1 by ring. rewrite sqrt_1.
  apply point3_eq; simpl; field.
Qed.

Lemma cosine_eq (u : Point3) : cosine u = p2 u.
Proof. unfold cosine; rewrite normal_vector_eq; unfold Np.dot; simpl; ring. Qed.

Lemma dot_normal (u : Point3) : Np.dot u (mkPoint3 0 0 1) = cosine u.
Proof. unfold cosine. rewrite normal_vector_eq. reflexivity. Qed.

Lemma rotation_matrix_raises (u : Point3) :
  rotation_matrix u = Raise RotationMatrixError <-> cosine u = -1.
Proof.
  unfold rotation_matrix.
  destruct (Req_dec_T (cosine u) (- 1.0)) as [E | N]; split; intros H.
  - lra.
  - reflexivity.
  - discriminate.
  - exfalso; apply N; lra.
Qed.

Lemma rotation_matrix_ok (u : Point3) :
  cosine u <> -1 -> rotation_matrix u = Ok (rodrigues u).
Proof.
  intros H. unfold rotation_matrix.
  destruct (Req_dec_T (cosine u) (- 1.0)) as [E | N].
  - exfalso; apply H; lra.
  - reflexivity.
Qed.

Section Rotation.

Variable u : Point3.
Hypothesis unit_u : Np.dot u u = 1.
Hypothesis regular : cosine u <> -1.

Let k := / (1 + p2 u).

Lemma k_spec : k * (1 + p2 u) = 1.
Proof.
  unfold k. apply Rinv_l. rewrite cosine_eq in regular. lra.
Qed.

Ltac open_rot :=
  pose proof k_spec as Hk; pose proof unit_u as Hu;
  unfold rodrigues; rewrite ?cosine_eq, ?normal_vector_eq;
  unfold Rdiv; rewrite ?Rmult_1_l; fold k;
  clearbody k; clear regular;
  destruct u as [a b c];
  cbv [Np.mvdot Np.mdot Np.madd Np.mscale Np.transpose Np.det
       Np.col0 Np.col1 Np.col2 Np.eye v_x Np.cross Np.dot
       Np.add Np.scale Np.sub p0 p1 p2 row0 row1 row2] in *.

Lemma rodrigues_maps_normal : Np.mvdot (rodrigues u) normal_vector = u.
Proof.
  open_rot. f_equal; nsatz.
Qed.

Lemma rodrigues_orthogonal :
  Np.mdot (rodrigues u) (Np.transpose (rodrigues u)) = Np.eye.
Proof.
  open_rot. f_equal; f_equal; nsatz.
Qed.

Lemma rodrigues_det : Np.det (rodrigues u) = 1.
Proof. open_rot. nsatz. Qed.

(** On the plane z = 0 the rotation keeps scalar products, and it
    sends the plane to the plane orthogonal to [u]. *)
Lemma rodrigues_plane_dot (s t : Point3) :
  p2 s = 0 -> p2 t = 0 ->
  Np.dot (Np.mvdot (rodrigues u) s) (Np.mvdot (rodrigues u) t) = Np.dot s t.
Proof.
  intros Hs Ht. destruct s as [s0 s1 s2], t as [t0 t1 t2]; simpl in Hs, Ht; subst.
  open_rot. nsatz.
Qed.

Lemma rodrigues_plane_orth (t : Point3) :
  p2 t = 0 -> Np.dot u (Np.mvdot (rodrigues u) t) = 0.
Proof.
  intros Ht. destruct t as [t0 t1 t2]; simpl in Ht; subst.
  open_rot. nsatz.
Qed.

End Rotation.

(** ** Contexts built by [__init__] *)

Lemma init_bond_length path_to_data table self :
  init path_to_data table = Some self ->
  bond_length self = Np.sub (atom_to_be_functionalized_xyz self) (bonded_atom_xyz self).
Proof.
  unfold init.
  destruct (nth_error table 0) as [a |]; [| discriminate].
  destruct (nth_error table 1) as [b |]; [| discriminate].
  intros H; injection H as <-; reflexivity.
Qed.

Lemma init_bond_length_norm path_to_data table self :
  init path_to_data table = Some self ->
  bond_length_norm self = Np.div (bond_length self) (Np.norm (bond_length self)).
Proof.
  unfold init.
  destruct (nth_error table 0) as [a |]; [| discriminate].
  destruct (nth_error table 1) as [b |]; [| discriminate].
  intros H; injection H as <-; reflexivity.
Qed.

Lemma init_triangle path_to_data table self :
  init path_to_data table = Some self ->
  equilateral_triangle self = canonical_triangle.
Proof.
  unfold init.
  destruct (nth_error table 0) as [a |]; [| discriminate].
  destruct (nth_error table 1) as [b |]; [| discriminate].
  intros H; injection H as <-; reflexivity.
Qed.

Lemma init_norm_nonzero path_to_data table self :
  init path_to_data table = Some self ->
  atom_to_be_functionalized_xyz self <> bonded_atom_xyz self ->
  Np.norm (bond_length self) <> 0.
Proof.
  intros Hi Hne Hz. apply -> norm_zero_iff in Hz.
  rewrite (init_bond_length _ _ _ Hi) in Hz. apply -> sub_zero_iff in Hz.
  exact (Hne Hz).
Qed.

Lemma init_unit path_to_data table self :
  init path_to_data table = Some self ->
  atom_to_be_functionalized_xyz self <> bonded_atom_xyz self ->
  Np.dot (bond_length_norm self) (bond_length_norm self) = 1.
Proof.
  intros Hi Hne. rewrite (init_bond_length_norm _ _ _ Hi).
  apply unit_direction. eapply init_norm_nonzero; eauto.
Qed.

Lemma distance_atoms path_to_data table self :
  init path_to_data table = Some self ->
  distance (atom_to_be_functionalized_xyz self) (bonded_atom_xyz self) = bond_norm self.
Proof.
  intros Hi. rewrite distance_norm. unfold bond_norm.
  rewrite (init_bond_length _ _ _ Hi). reflexivity.
Qed.

Lemma edge_sq (self : Complex) : edge self * edge self = 8 / 3 * (bond_norm self * bond_norm self).
Proof.
  unfold edge. pose proof sqrt23_sq as Hq.
  set (q := sqrt (2.0 / 3.0)) in *. set (L := bond_norm self). nra.
Qed.

Lemma edge_nonneg (self : Complex) : 0 <= edge self.
Proof.
  unfold edge, bond_norm. pose proof (norm_nonneg (bond_length self)).
  pose proof sqrt23_pos. nra.
Qed.

(** ** What the two methods compute, for every context *)

Lemma find_centroid_eq (self : Complex) :
  find_centroid self =
  (Np.add (atom_to_be_functionalized_xyz self)
          (Np.scale (edge self / 3.0) (bond_length_norm self)),
   set_equilateral_triangle self (Np.mscale (edge self) (equilateral_triangle self))).
Proof. reflexivity. Qed.

Lemma generate_ok (self : Complex) :
  cosine (bond_length_norm self) <> -1 ->
  generate_substituent_vectors self =
  (let centroid := fst (find_centroid self) in
   let rotation := rodrigues (bond_length_norm self) in
   let triangle := equilateral_triangle (snd (find_centroid self)) in
   Ok (place centroid rotation (row0 triangle),
       place centroid rotation (row1 triangle),
       place centroid rotation (row2 triangle)),
   snd (find_centroid self)).
Proof.
  intros Hc. unfold generate_substituent_vectors.
  rewrite find_centroid_eq; simpl.
  rewrite (rotation_matrix_ok _ Hc). reflexivity.
Qed.

Lemma generate_raise (self : Complex) :
  cosine (bond_length_norm self) = -1 ->
  generate_substituent_vectors self = (Raise RotationMatrixError, snd (find_centroid self)).
Proof.
  intros Hc. unfold generate_substituent_vectors.
  rewrite find_centroid_eq; simpl.
  apply rotation_matrix_raises in Hc. rewrite Hc. reflexivity.
Qed.

(** ** Geometry of the placed points *)

Lemma place_eq (centroid : Point3) (rotation : Matrix3) (t : Point3) :
  place centroid rotation t = Np.add centroid (Np.mvdot rotation t).
Proof.
  unfold place, starting_coordinate, Np.zeros. apply point3_eq; simpl; ring.
Qed.

(** Squared length of [h*u + w] when [u] is a unit vector orthogonal to [w]. *)
Lemma dot_axis_plus_orth (u w : Point3) (h : R) :
  Np.dot u u = 1 -> Np.dot u w = 0 ->
  Np.dot (Np.add (Np.scale h u) w) (Np.add (Np.scale h u) w) = h * h + Np.dot w w.
Proof.
  intros Hu Hw.
  replace (Np.dot (Np.add (Np.scale h u) w) (Np.add (Np.scale h u) w))
    with (h * h * Np.dot u u + 2 * h * Np.dot u w + Np.dot w w)
    by (unfold Np.dot, Np.add, Np.scale; simpl; ring).
  rewrite Hu, Hw. ring.
Qed.

Lemma dot_sub_neg (a b : Point3) :
  Np.dot (Np.sub a (Np.add a b)) (Np.sub a (Np.add a b)) = Np.dot b b.
Proof. unfold Np.dot, Np.sub, Np.add; simpl; ring. Qed.

Lemma dot_sub_self (a : Point3) : Np.dot (Np.sub a a) (Np.sub a a) = 0.
Proof. destruct a; cbv [Np.dot Np.sub p0 p1 p2]; ring. Qed.

Lemma mvdot_sub (m : Matrix3) (s t : Point3) :
  Np.sub (Np.mvdot m s) (Np.mvdot m t) = Np.mvdot m (Np.sub s t).
Proof. apply point3_eq; unfold Np.mvdot, Np.dot, Np.sub; simpl; ring. Qed.

Section Placement.

Variable u : Point3.
Hypothesis unit_u : Np.dot u u = 1.
Hypothesis regular : cosine u <> -1.

(** the central atom [A], the offset [h] of the centroid along [u] *)
Variables (A : Point3) (h : R).

Let centroid := Np.add A (Np.scale h u).

(** From the central atom to a placed point of the plane z = 0. *)
Lemma sq_dist_center (t : Point3) :
  p2 t = 0 ->
  Np.dot (Np.sub A (place centroid (rodrigues u) t))
         (Np.sub A (place centroid (rodrigues u) t)) = h * h + Np.dot t t.
Proof.
  intros Ht. rewrite place_eq. unfold centroid.
  set (w := Np.mvdot (rodrigues u) t).
  replace (Np.add (Np.add A (Np.scale h u)) w)
    with (Np.add A (Np.add (Np.scale h u) w))
    by (apply point3_eq; simpl; ring).
  rewrite dot_sub_neg, dot_axis_plus_orth.
  - unfold w. rewrite rodrigues_plane_dot; auto.
  - exact unit_u.
  - unfold w. apply rodrigues_plane_orth; auto.
Qed.

(** From the point [A - l*u] (the bonded atom) to a placed point. *)
Lemma sq_dist_bonded (l : R) (t : Point3) :
  p2 t = 0 ->
  Np.dot (Np.sub (Np.sub A (Np.scale l u)) (place centroid (rodrigues u) t))
         (Np.sub (Np.sub A (Np.scale l u)) (place centroid (rodrigues u) t))
  = (l + h) * (l + h) + Np.dot t t.
Proof.
  intros Ht. rewrite place_eq. unfold centroid.
  set (w := Np.mvdot (rodrigues u) t).
  replace (Np.dot (Np.sub (Np.sub A (Np.scale l u)) (Np.add (Np.add A (Np.scale h u)) w))
                  (Np.sub (Np.sub A (Np.scale l u)) (Np.add (Np.add A (Np.scale h u)) w)))
    with (Np.dot (Np.add (Np.scale (l + h) u) w) (Np.add (Np.scale (l + h) u) w))
    by (unfold Np.dot, Np.sub, Np.add, Np.scale; simpl; ring).
  rewrite dot_axis_plus_orth.
  - unfold w. rewrite rodrigues_plane_dot; auto.
  - exact unit_u.
  - unfold w. apply rodrigues_plane_orth; auto.
Qed.

(** Between two placed points. *)
Lemma sq_dist_placed (s t : Point3) :
  p2 s = 0 -> p2 t = 0 ->
  Np.dot (Np.sub (place centroid (rodrigues u) s) (place centroid (rodrigues u) t))
         (Np.sub (place centroid (rodrigues u) s) (place centroid (rodrigues u) t))
  = Np.dot (Np.sub s t) (Np.sub s t).
Proof.
  intros Hs Ht. rewrite !place_eq.
  replace (Np.sub (Np.add centroid (Np.mvdot (rodrigues u) s))
                  (Np.add centroid (Np.mvdot (rodrigues u) t)))
    with (Np.sub (Np.mvdot (rodrigues u) s) (Np.mvdot (rodrigues u) t))
    by (apply point3_eq; simpl; ring).
  rewrite mvdot_sub. apply rodrigues_plane_dot; auto; simpl; lra.
Qed.

End Placement.

(** ** The scaled triangle *)

Lemma inv_sqrt3_sq : / sqrt 3.0 * / sqrt 3.0 = / 3.
Proof.
  rewrite <- Rinv_mult, sqrt3_sq. reflexivity.
Qed.

Lemma scaled_row_plane (s : R) :
  p2 (row0 (Np.mscale s canonical_triangle)) = 0 /\
  p2 (row1 (Np.mscale s canonical_triangle)) = 0 /\
  p2 (row2 (Np.mscale s canonical_triangle)) = 0.
Proof. cbn. repeat split; ring. Qed.

Ltac open_triangle :=
  pose proof inv_sqrt3_sq as Hii;
  cbv [Np.dot Np.sub Np.mscale Np.scale canonical_triangle p0 p1 p2 row0 row1 row2];
  unfold Rdiv;
  set (i := / sqrt 3.0) in *; clearbody i.

(** Every vertex of the scaled triangle is at squared distance s^2/3 from the origin. *)
Lemma scaled_row_sq (s : R) :
  let T := Np.mscale s canonical_triangle in
  Np.dot (row0 T) (row0 T) = s * s / 3 /\
  Np.dot (row1 T) (row1 T) = s * s / 3 /\
  Np.dot (row2 T) (row2 T) = s * s / 3.
Proof.
  open_triangle.
  assert (H3 : 3 * (i * i) = 1) by (rewrite Hii; field).
  repeat split; nra.
Qed.

(** The sides of the scaled triangle have squared length s^2. *)
Lemma scaled_side_sq (s : R) :
  let T := Np.mscale s canonical_triangle in
  Np.dot (Np.sub (row0 T) (row1 T)) (Np.sub (row0 T) (row1 T)) = s * s /\
  Np.dot (Np.sub (row0 T) (row2 T)) (Np.sub (row0 T) (row2 T)) = s * s /\
  Np.dot (Np.sub (row1 T) (row2 T)) (Np.sub (row1 T) (row2 T)) = s * s.
Proof.
  open_triangle.
  assert (H3 : 3 * (i * i) = 1) by (rewrite Hii; field).
  repeat split; nra.
Qed.

(** ** Valid inputs: distinct atoms, bond direction not opposite to (0,0,1) *)

Section Valid.

Variables (path_to_data : string) (table : list LabeledAtom) (self : Complex).
Hypothesis from_init : init path_to_data table = Some self.
Hypothesis distinct : atom_to_be_functionalized_xyz self <> bonded_atom_xyz self.
Hypothesis regular : cosine (bond_length_norm self) <> -1.

Let A := atom_to_be_functionalized_xyz self.
Let B := bonded_atom_xyz self.
Let u := bond_length_norm self.
Let L := bond_norm self.
Let s := edge self.

(** The point that the loop computes from the row [t] of the scaled triangle. *)
Let placed (t : Point3) : Point3 :=
  place (Np.add A (Np.scale (s / 3.0) u)) (rodrigues u) t.

Let T := Np.mscale s canonical_triangle.

Lemma valid_result :
  generate_substituent_vectors self =
  (Ok (placed (row0 T), placed (row1 T), placed (row2 T)),
   set_equilateral_triangle self T).
Proof.
  rewrite (generate_ok _ regular). rewrite find_centroid_eq. simpl.
  rewrite (init_triangle _ _ _ from_init). reflexivity.
Qed.

Lemma valid_unit : Np.dot u u = 1.
Proof. exact (init_unit _ _ _ from_init distinct). Qed.

Lemma valid_L_pos : 0 < L.
Proof.
  pose proof (init_norm_nonzero _ _ _ from_init distinct) as Hn.
  pose proof (norm_nonneg (bond_length self)) as Hp.
  unfold L, bond_norm. lra.
Qed.

Lemma valid_s_pos : 0 < s.
Proof.
  unfold s, edge. pose proof valid_L_pos. pose proof sqrt23_pos. fold L. nra.
Qed.

(** The bonded atom lies at distance [L] from [A], opposite to [u]. *)
Lemma valid_bonded_atom : B = Np.sub A (Np.scale L u).
Proof.
  pose proof valid_L_pos as HL.
  unfold u. rewrite (init_bond_length_norm _ _ _ from_init).
  fold (bond_norm self). fold L.
  rewrite (init_bond_length _ _ _ from_init). fold A B.
  apply point3_eq; simpl; field; lra.
Qed.

Lemma valid_center_sq (t : Point3) :
  p2 t = 0 -> Np.dot t t = s * s / 3 ->
  distance A (placed t) * distance A (placed t) = (2 / 3 * s) * (2 / 3 * s).
Proof.
  intros Hz Ht. rewrite distance_sq. unfold placed.
  rewrite (sq_dist_center u valid_unit regular A (s / 3.0) t Hz), Ht. lra.
Qed.

Lemma valid_center (t : Point3) :
  p2 t = 0 -> Np.dot t t = s * s / 3 -> distance A (placed t) = 2 / 3 * s.
Proof.
  intros Hz Ht. apply sq_eq_nonneg.
  - apply distance_nonneg.
  - pose proof valid_s_pos; lra.
  - apply valid_center_sq; assumption.
Qed.

Lemma valid_side (t t' : Point3) :
  p2 t = 0 -> p2 t' = 0 -> Np.dot (Np.sub t t') (Np.sub t t') = s * s ->
  distance (placed t) (placed t') = s.
Proof.
  intros Hz Hz' Ht. apply sq_eq_nonneg.
  - apply distance_nonneg.
  - pose proof valid_s_pos; lra.
  - rewrite distance_sq. unfold placed.
    rewrite (sq_dist_placed u valid_unit regular A (s / 3.0) t t' Hz Hz'). exact Ht.
Qed.

Lemma valid_bonded_sq (t : Point3) :
  p2 t = 0 -> Np.dot t t = s * s / 3 ->
  distance B (placed t) * distance B (placed t)
  = (L + s / 3) * (L + s / 3) + s * s / 3.
Proof.
  intros Hz Ht. rewrite distance_sq, valid_bonded_atom. unfold placed.
  rewrite (sq_dist_bonded u valid_unit regular A (s / 3.0) L t Hz), Ht.
  replace (s / 3.0) with (s / 3) by lra. reflexivity.
Qed.

Lemma valid_bonded (t t' : Point3) :
  p2 t = 0 -> Np.dot t t = s * s / 3 ->
  p2 t' = 0 -> Np.dot t' t' = s * s / 3 ->
  distance B (placed t) = distance B (placed t').
Proof.
  intros Hz Ht Hz' Ht'. apply sq_eq_nonneg; try apply distance_nonneg.
  rewrite !valid_bonded_sq; auto.
Qed.

End Valid.

(** ** A concrete input: central atom at the origin, bonded atom at (1,0,0) *)

Lemma methyl_init : init "CH3.xyz" methyl_table = Some methyl.
Proof. reflexivity. Qed.

Lemma methyl_distinct : atom_to_be_functionalized_xyz methyl <> bonded_atom_xyz methyl.
Proof. simpl. intros H. apply (f_equal p0) in H. simpl in H. lra. Qed.

Lemma methyl_bond_norm : bond_norm methyl = 1.
Proof.
  unfold bond_norm, Np.norm, Np.dot; simpl.
  replace ((0 - 1) * (0 - 1) + (0 - 0) * (0 - 0) + (0 - 0) * (0 - 0)) with 1 by ring.
  apply sqrt_1.
Qed.

Lemma methyl_cosine : cosine (bond_length_norm methyl) = 0.
Proof. rewrite cosine_eq. simpl. unfold Rdiv. rewrite Rminus_diag, Rmult_0_l. reflexivity. Qed.

Lemma methyl_regular : cosine (bond_length_norm methyl) <> -1.
Proof. rewrite methyl_cosine. lra. Qed.

Lemma methyl_margin : 1 / 10000 <= 1 + cosine (bond_length_norm methyl).
Proof. rewrite methyl_cosine. lra. Qed.

Lemma methyl_edge : edge methyl = 2 * sqrt (2.0 / 3.0).
Proof. unfold edge. rewrite methyl_bond_norm. lra. Qed.

Lemma methyl_edge_sq : edge methyl * edge methyl = 8 / 3.
Proof. rewrite edge_sq, methyl_bond_norm. lra. Qed.

Lemma rescaled_row0_sq (s : R) :
  let T := Np.mscale s canonical_triangle in
  Np.dot (Np.sub (row0 T) (row0 (Np.mscale s T))) (Np.sub (row0 T) (row0 (Np.mscale s T)))
  = (s - s * s) * (s - s * s) / 3.
Proof.
  open_triangle.
  transitivity ((s - s * s) * (s - s * s) * (i * i)); [ring | rewrite Hii; reflexivity].
Qed.

Lemma mscale_one (m : Matrix3) : Np.mscale 1 m = m.
Proof.
  destruct m as [[a b c] [d e f] [g h i]]. unfold Np.mscale, Np.scale; simpl.
  rewrite !Rmult_1_l. reflexivity.
Qed.

Section Twice.

Variables (path_to_data : string) (table : list LabeledAtom) (self : Complex).
Hypothesis from_init : init path_to_data table = Some self.
Hypothesis distinct : atom_to_be_functionalized_xyz self <> bonded_atom_xyz self.
Hypothesis regular : cosine (bond_length_norm self) <> -1.

Let A := atom_to_be_functionalized_xyz self.
Let u := bond_length_norm self.
Let s := edge self.
Let T := Np.mscale s canonical_triangle.
Let placed (t : Point3) : Point3 :=
  place (Np.add A (Np.scale (s / 3.0) u)) (rodrigues u) t.

Lemma twice_result :
  generate_twice self =
  (Ok (placed (row0 T), placed (row1 T), placed (row2 T)),
   Ok (placed (row0 (Np.mscale s T)), placed (row1 (Np.mscale s T)),
       placed (row2 (Np.mscale s T)))).
Proof.
  unfold generate_twice.
  rewrite (valid_result _ _ _ from_init regular).
  rewrite generate_ok by exact regular.
  reflexivity.
Qed.

Lemma twice_equal_iff : fst (generate_twice self) = snd (generate_twice self) <-> s = 1.
Proof.
  rewrite twice_result; cbn [fst snd]. split.
  - intros H.
    assert (H0 : placed (row0 T) = placed (row0 (Np.mscale s T))) by congruence.
    pose proof (valid_s_pos _ _ _ from_init distinct) as Hs. fold s in Hs.
    assert (Hd : Np.dot (Np.sub (placed (row0 T)) (placed (row0 (Np.mscale s T))))
                        (Np.sub (placed (row0 T)) (placed (row0 (Np.mscale s T)))) = 0).
    { rewrite <- H0. apply dot_sub_self. }
    unfold placed in Hd.
    rewrite (sq_dist_placed u (valid_unit _ _ _ from_init distinct) regular) in Hd
      by (cbn; ring).
    unfold T in Hd. rewrite rescaled_row0_sq in Hd.
    assert (Hz : s - s * s = 0) by nra. nra.
  - intros E. rewrite E, mscale_one. reflexivity.
Qed.

End Twice.

(** After [generate_substituent_vectors], whether it returns or raises, the
    context differs from the one before in [equilateral_triangle] only. *)
Lemma generate_keeps (self : Complex) :
  same_but_triangle self (snd (generate_substituent_vectors self)).
Proof.
  assert (Hs : snd (generate_substituent_vectors self) = snd (find_centroid self)).
  { destruct (Req_dec_T (cosine (bond_length_norm self)) (-1)) as [E | N].
    - rewrite (generate_raise _ E). reflexivity.
    - rewrite (generate_ok _ N). reflexivity. }
  rewrite Hs, find_centroid_eq. unfold same_but_triangle; cbn. repeat split; reflexivity.
Qed.

(** ** What the program computes in binary64 *)

Module Binary64.

Import Floats.
Local Set Warnings "-inexact-float".

(** With 1 + c at 1/10000 and above, the program is within 1e-11 of what
    the real model proves: the matrix is orthogonal and maps (0,0,1) to the
    bond direction, the returned points are s apart and equally far from
    the bonded atom.  Beside the singular direction, at bonded atom
    (1e-7,0,1), it is not within 0.01 of it. *)
Lemma at_the_margin :
  (1e-4 <=? 1 + F64.cosine (F64.bond_length_norm F64.origin F64.at_the_margin))%float
  = true /\
  F64.as_the_model 1e-11 F64.origin F64.at_the_margin = true /\
  (1e-4 <=? 1 + F64.cosine (F64.bond_length_norm F64.central F64.tilted))%float = true /\
  F64.as_the_model 1e-11 F64.central F64.tilted = true /\
  F64.as_the_model 1e-11 F64.origin F64.aside = true /\
  F64.as_the_model 0.01 F64.origin F64.beside_singular = false.
Proof. repeat split; vm_compute; reflexivity. Qed.

(** Bonded atom at (1e-9,0,1): the bond direction has a first coordinate
    below 0, it is not (0,0,-1); its third coordinate rounds to -1, so
    [c == -1.0] and the program raises [RotationMatrixError]. *)
Lemma raises_beside_singular :
  let u := F64.bond_length_norm F64.origin F64.next_to_singular in
  (F64.p0 u <? 0)%float = true /\
  (F64.cosine u =? -1)%float = true /\
  F64.rotation_matrix u = None /\
  F64.generate_substituent_vectors F64.origin F64.next_to_singular F64.canonical_triangle
  = None.
Proof. cbv zeta. repeat split; vm_compute; reflexivity. Qed.

(** The quotient of [find_angle] for the parallel vectors (1,1,1) and
    (2,2,2), and for (1,1,1) with itself, is above 1, where [np.arccos]
    returns nan; for (3,3,3) and (1,1,1) it is 1, and for (1,1,0) with
    itself it is below 1. *)
Lemma quotient_above_one :
  (1 <? F64.cos_th (F64.mkPoint3 1 1 1) (F64.mkPoint3 2 2 2))%float = true /\
  (1 <? F64.cos_th (F64.mkPoint3 1 1 1) (F64.mkPoint3 1 1 1))%float = true /\
  (F64.cos_th (F64.mkPoint3 3 3 3) (F64.mkPoint3 1 1 1) =? 1)%float = true /\
  (F64.cos_th (F64.mkPoint3 1 1 0) (F64.mkPoint3 1 1 0) <? 1)%float = true.
Proof. repeat split; vm_compute; reflexivity. Qed.

(** C2, as stated, fails at centralAtom = (0,0,0), bondedAtom = (1,0,0):
    the input is valid, the bond length is 1 and the returned points are at
    distance 2 * sqrt(2/3) from one another.  It fails a second time beside
    the singular direction, in the arithmetic of the program: at
    centralAtom = (0,0,0), bondedAtom = (1e-7,0,1) the input is valid, the
    program returns three points, and their distances 1.6526, 1.6526, 1.7099
    from one another and 1.8094, 1.8271, 1.8271 from bondedAtom are not
    equal. *)
Lemma C2_counterexample :
  (init "CH3.xyz" methyl_table = Some methyl /\
   atom_to_be_functionalized_xyz methyl <> bonded_atom_xyz methyl /\
   cosine (bond_length_norm methyl) <> -1 /\
   ~ (forall s1 s2 s3 self',
         generate_substituent_vectors methyl = (Ok (s1, s2, s3), self') ->
         regular_tetrahedron
           (distance (atom_to_be_functionalized_xyz methyl) (bonded_atom_xyz methyl))
           (bonded_atom_xyz methyl) s1 s2 s3)) /\
  (exists s1 s2 s3 : F64.Point3,
      F64.generate_substituent_vectors F64.origin F64.beside_singular F64.canonical_triangle
      = Some (s1, s2, s3) /\
      (F64.distance s1 s2 + 0.05 <? F64.distance s2 s3)%float = true /\
      (F64.distance F64.beside_singular s1 + 0.01
       <? F64.distance F64.beside_singular s2)%float = true).
Proof.
  split.
  - split; [exact methyl_init |]. split; [exact methyl_distinct |].
    split; [exact methyl_regular |]. intros H.
    specialize (H _ _ _ _ (valid_result _ _ _ methyl_init methyl_regular)).
    destruct H as (_ & _ & _ & H & _).
    pose proof (scaled_row_plane (edge methyl)) as (Z0 & Z1 & Z2).
    pose proof (scaled_side_sq (edge methyl)) as (S01 & S02 & S12).
    rewrite (valid_side _ _ _ methyl_init methyl_distinct methyl_regular _ _ Z0 Z1 S01) in H.
    rewrite (distance_atoms _ _ _ methyl_init), methyl_bond_norm in H.
    pose proof methyl_edge_sq as He. rewrite H in He. lra.
  - destruct (F64.generate_substituent_vectors
                F64.origin F64.beside_singular F64.canonical_triangle)
      as [[[s1 s2] s3] |] eqn:E; [| vm_compute in E; discriminate].
    exists s1, s2, s3. vm_compute in E. injection E as <- <- <-.
    repeat split; vm_compute; reflexivity.
Qed.

(** C5, as stated, fails in the arithmetic of the program at
    centralAtom = (0,0,0), bondedAtom = (1e-7,0,1).  The input is not
    singular: the rounded c is -0.9999999999999951, not -1, and the program
    builds R.  The first diagonal entry of R R^T is 1.096, so R is not
    orthogonal, and R (0,0,1) has -1.047 where the bond direction has
    -0.9999999999999951. *)
Lemma C5_counterexample :
  let u := F64.bond_length_norm F64.origin F64.beside_singular in
  (F64.cosine u =? -1)%float = false /\
  exists R : F64.Matrix3,
    F64.rotation_matrix u = Some R /\
    (1.09 <? F64.p0 (F64.row0 (F64.mdot R (F64.transpose R))))%float = true /\
    F64.mclose 0.09 (F64.mdot R (F64.transpose R)) F64.eye = false /\
    F64.pclose 0.04 (F64.mvdot R (F64.mkPoint3 0 0 1)) u = false.
Proof.
  cbv zeta. split; [vm_compute; reflexivity |].
  exists (match F64.rotation_matrix
                  (F64.bond_length_norm F64.origin F64.beside_singular) with
          | Some R => R
          | None => F64.eye
          end).
  repeat split; vm_compute; reflexivity.
Qed.

End Binary64.

(** ** The claims on the geometry *)

(** For every valid input the three returned points are at distance
    (4/3) * sqrt(2/3) * L from the central atom, L the bond length. *)
Lemma distance_to_central_atom
    (path_to_data : string) (table : list LabeledAtom) (self : Complex) :
  init path_to_data table = Some self ->
  atom_to_be_functionalized_xyz self <> bonded_atom_xyz self ->
  cosine (bond_length_norm self) <> -1 ->
  exists s1 s2 s3 self',
    generate_substituent_vectors self = (Ok (s1, s2, s3), self') /\
    let A := atom_to_be_functionalized_xyz self in
    let L := distance A (bonded_atom_xyz self) in
    distance A s1 = 4 / 3 * sqrt (2 / 3) * L /\
    distance A s2 = 4 / 3 * sqrt (2 / 3) * L /\
    distance A s3 = 4 / 3 * sqrt (2 / 3) * L.
Proof.
  intros Hi Hd Hr.
  pose proof (scaled_row_plane (edge self)) as (Z0 & Z1 & Z2).
  pose proof (scaled_row_sq (edge self)) as (Q0 & Q1 & Q2).
  do 4 eexists. split; [exact (valid_result _ _ _ Hi Hr) |].
  cbv zeta. rewrite (distance_atoms _ _ _ Hi).
  replace (4 / 3 * sqrt (2 / 3) * bond_norm self) with (2 / 3 * edge self)
    by (unfold edge; replace (2.0 / 3.0) with (2 / 3) by lra; lra).
  repeat split; apply (valid_center _ _ _ Hi Hd Hr); assumption.
Qed.

(** C1. At the input centralAtom = (0,0,0), bondedAtom = (1,0,0) the bond
    length is 1 and [generate_substituent_vectors] returns three points, each
    at distance (4/3) * sqrt(2/3) from the central atom: the bond length is
    not preserved, because [find_centroid] moves the centroid by a third of
    the scaled length [b * 2 * sqrt(2/3)] where a third of the bond length
    gives the regular tetrahedron. *)
Theorem C1_distance_to_central_atom_at_unit_bond :
  exists s1 s2 s3 self',
    generate_substituent_vectors methyl = (Ok (s1, s2, s3), self') /\
    distance (atom_to_be_functionalized_xyz methyl) (bonded_atom_xyz methyl) = 1 /\
    distance (atom_to_be_functionalized_xyz methyl) s1 = 4 / 3 * sqrt (2 / 3) /\
    distance (atom_to_be_functionalized_xyz methyl) s2 = 4 / 3 * sqrt (2 / 3) /\
    distance (atom_to_be_functionalized_xyz methyl) s3 = 4 / 3 * sqrt (2 / 3) /\
    1 < 4 / 3 * sqrt (2 / 3).
Proof.
  pose proof (scaled_row_plane (edge methyl)) as (Z0 & Z1 & Z2).
  pose proof (scaled_row_sq (edge methyl)) as (Q0 & Q1 & Q2).
  assert (He : 2 / 3 * edge methyl = 4 / 3 * sqrt (2 / 3)).
  { rewrite methyl_edge. replace (2.0 / 3.0) with (2 / 3) by lra. lra. }
  do 4 eexists. split; [exact (valid_result _ _ _ methyl_init methyl_regular) |].
  split; [rewrite (distance_atoms _ _ _ methyl_init); exact methyl_bond_norm |].
  rewrite <- He.
  repeat split;
    try (apply (valid_center _ _ _ methyl_init methyl_distinct methyl_regular); assumption).
  pose proof methyl_edge_sq. pose proof (edge_nonneg methyl). nra.
Qed.

(** C2, amended.  For every valid input whose bond direction keeps the
    distance 1 + c >= 1/10000 from the singular direction, the three
    returned points are at distance s = L * 2 * sqrt(2/3) from one another,
    where L is the distance of the two atoms, and the three distances from
    bondedAtom to the returned points are equal to one another.  (Over the
    reals; the program is within rounding of it on these inputs, about
    1e-16 / (1 + c).) *)
Theorem C2_substituents_equilateral
    (path_to_data : string) (table : list LabeledAtom) (self : Complex) :
  init path_to_data table = Some self ->
  atom_to_be_functionalized_xyz self <> bonded_atom_xyz self ->
  1 / 10000 <= 1 + cosine (bond_length_norm self) ->
  exists s1 s2 s3 self',
    generate_substituent_vectors self = (Ok (s1, s2, s3), self') /\
    let L := distance (atom_to_be_functionalized_xyz self) (bonded_atom_xyz self) in
    distance s1 s2 = L * 2 * sqrt (2 / 3) /\
    distance s1 s3 = L * 2 * sqrt (2 / 3) /\
    distance s2 s3 = L * 2 * sqrt (2 / 3) /\
    distance (bonded_atom_xyz self) s1 = distance (bonded_atom_xyz self) s2 /\
    distance (bonded_atom_xyz self) s2 = distance (bonded_atom_xyz self) s3.
Proof.
  intros Hi Hd Hm.
  assert (Hr : cosine (bond_length_norm self) <> -1) by lra.
  pose proof (scaled_row_plane (edge self)) as (Z0 & Z1 & Z2).
  pose proof (scaled_row_sq (edge self)) as (Q0 & Q1 & Q2).
  pose proof (scaled_side_sq (edge self)) as (S01 & S02 & S12).
  do 4 eexists. split; [exact (valid_result _ _ _ Hi Hr) |].
  cbv zeta. rewrite (distance_atoms _ _ _ Hi).
  replace (bond_norm self * 2 * sqrt (2 / 3)) with (edge self)
    by (unfold edge; replace (2.0 / 3.0) with (2 / 3) by lra; lra).
  repeat split.
  - apply (valid_side _ _ _ Hi Hd Hr); assumption.
  - apply (valid_side _ _ _ Hi Hd Hr); assumption.
  - apply (valid_side _ _ _ Hi Hd Hr); assumption.
  - apply (valid_bonded _ _ _ Hi Hd Hr); assumption.
  - apply (valid_bonded _ _ _ Hi Hd Hr); assumption.
Qed.

Lemma C2_substituents_equilateral_witness :
  exists s1 s2 s3 self',
    generate_substituent_vectors methyl = (Ok (s1, s2, s3), self') /\
    let L := distance (atom_to_be_functionalized_xyz methyl) (bonded_atom_xyz methyl) in
    distance s1 s2 = L * 2 * sqrt (2 / 3) /\
    distance s1 s3 = L * 2 * sqrt (2 / 3) /\
    distance s2 s3 = L * 2 * sqrt (2 / 3) /\
    distance (bonded_atom_xyz methyl) s1 = distance (bonded_atom_xyz methyl) s2 /\
    distance (bonded_atom_xyz methyl) s2 = distance (bonded_atom_xyz methyl) s3.
Proof.
  exact (C2_substituents_equilateral "CH3.xyz" methyl_table methyl
           methyl_init methyl_distinct methyl_margin).
Defined.

Lemma singular_cosine (self : Complex) :
  init "CH3.xyz" singular_table = Some self ->
  cosine (bond_length_norm self) = -1.
Proof.
  intros H. injection H as <-. rewrite cosine_eq. simpl.
  unfold Np.norm, Np.dot; simpl.
  replace ((0 - 0) * (0 - 0) + (0 - 0) * (0 - 0) + (0 - 1) * (0 - 1)) with 1 by ring.
  rewrite sqrt_1. field.
Qed.

(** C3. [generate_substituent_vectors] raises [RotationMatrixError] exactly
    when c, the scalar product of the bond direction with (0,0,1), is -1; it
    does so for centralAtom = (0,0,0), bondedAtom = (0,0,1); and whenever c is
    not -1 it returns three points. *)
Theorem C3_rotation_error_iff_antiparallel :
  (forall self : Complex,
      fst (generate_substituent_vectors self) = Raise RotationMatrixError
      <-> Np.dot (bond_length_norm self) (mkPoint3 0 0 1) = -1) /\
  (exists self : Complex,
      init "CH3.xyz" singular_table = Some self /\
      atom_to_be_functionalized_xyz self = mkPoint3 0 0 0 /\
      bonded_atom_xyz self = mkPoint3 0 0 1 /\
      fst (generate_substituent_vectors self) = Raise RotationMatrixError) /\
  (forall self : Complex,
      Np.dot (bond_length_norm self) (mkPoint3 0 0 1) <> -1 ->
      exists s1 s2 s3, fst (generate_substituent_vectors self) = Ok (s1, s2, s3)).
Proof.
  split; [| split].
  - intros self. rewrite dot_normal. split.
    + intros H. destruct (Req_dec_T (cosine (bond_length_norm self)) (-1)) as [E | N]; auto.
      rewrite (generate_ok _ N) in H. discriminate.
    + intros H. rewrite (generate_raise _ H). reflexivity.
  - eexists. split; [reflexivity |]. split; [reflexivity |]. split; [reflexivity |].
    rewrite generate_raise; [reflexivity |]. apply singular_cosine. reflexivity.
  - intros self N. rewrite dot_normal in N.
    rewrite (generate_ok _ N). cbn [fst]. eauto.
Qed.

(** C4. For distinct atoms, [find_centroid] returns centralAtom + (s/3)*u,
    with b = centralAtom - bondedAtom, L the norm of b, u = b/L and
    s = L*2*sqrt(2/3). *)
Theorem C4_find_centroid_formula
    (path_to_data : string) (table : list LabeledAtom) (self : Complex) :
  init path_to_data table = Some self ->
  atom_to_be_functionalized_xyz self <> bonded_atom_xyz self ->
  let centralAtom := atom_to_be_functionalized_xyz self in
  let bondedAtom := bonded_atom_xyz self in
  let b := Np.sub centralAtom bondedAtom in
  let L := Np.norm b in
  let u := Np.div b L in
  let s := L * 2 * sqrt (2 / 3) in
  fst (find_centroid self) = Np.add centralAtom (Np.scale (s / 3) u).
Proof.
  intros Hi _. cbv zeta. rewrite find_centroid_eq. simpl.
  rewrite (init_bond_length_norm _ _ _ Hi). unfold edge, bond_norm.
  rewrite (init_bond_length _ _ _ Hi).
  replace (2.0 / 3.0) with (2 / 3) by lra.
  apply point3_eq; simpl; lra.
Qed.

Lemma C4_find_centroid_formula_witness :
  fst (find_centroid methyl) =
  Np.add (mkPoint3 0 0 0)
         (Np.scale (Np.norm (Np.sub (mkPoint3 0 0 0) (mkPoint3 1 0 0)) * 2 * sqrt (2 / 3) / 3)
                   (Np.div (Np.sub (mkPoint3 0 0 0) (mkPoint3 1 0 0))
                           (Np.norm (Np.sub (mkPoint3 0 0 0) (mkPoint3 1 0 0))))).
Proof.
  exact (C4_find_centroid_formula "CH3.xyz" methyl_table methyl methyl_init methyl_distinct).
Defined.

(** C5, amended.  For distinct atoms whose bond direction keeps the
    distance 1 + c >= 1/10000 from the singular direction, the rotation
    matrix R = I + V + V^2 * (1/(1+c)), V the cross-product matrix of
    v = (0,0,1) x bondDirection, is orthogonal, has determinant 1 and maps
    (0,0,1) to the unit bond direction.  (Over the reals; the program is
    within rounding of it on these inputs, about 1e-16 / (1 + c).) *)
Theorem C5_rotation_matrix_proper
    (path_to_data : string) (table : list LabeledAtom) (self : Complex) :
  init path_to_data table = Some self ->
  atom_to_be_functionalized_xyz self <> bonded_atom_xyz self ->
  1 / 10000 <= 1 + Np.dot (bond_length_norm self) (mkPoint3 0 0 1) ->
  let bondDirection := bond_length_norm self in
  let c := Np.dot bondDirection (mkPoint3 0 0 1) in
  let V := v_x (Np.cross (mkPoint3 0 0 1) bondDirection) in
  let R := Np.madd (Np.madd Np.eye V) (Np.mscale (1 / (1 + c)) (Np.mdot V V)) in
  rotation_matrix bondDirection = Ok R /\
  Np.mdot R (Np.transpose R) = Np.eye /\
  Np.det R = 1 /\
  Np.mvdot R (mkPoint3 0 0 1) = bondDirection /\
  Np.dot bondDirection bondDirection = 1.
Proof.
  intros Hi Hd Hm. cbv zeta.
  assert (Hr : Np.dot (bond_length_norm self) (mkPoint3 0 0 1) <> -1) by lra.
  clear Hm. rewrite dot_normal in *.
  rewrite <- normal_vector_eq.
  fold (rodrigues (bond_length_norm self)).
  pose proof (init_unit _ _ _ Hi Hd) as Hu.
  split; [apply rotation_matrix_ok; exact Hr |].
  split; [apply rodrigues_orthogonal; assumption |].
  split; [apply rodrigues_det; assumption |].
  split; [apply rodrigues_maps_normal; assumption | exact Hu].
Qed.

Lemma methyl_dot_normal : Np.dot (bond_length_norm methyl) (mkPoint3 0 0 1) <> -1.
Proof. rewrite dot_normal. exact methyl_regular. Qed.

Lemma methyl_dot_margin :
  1 / 10000 <= 1 + Np.dot (bond_length_norm methyl) (mkPoint3 0 0 1).
Proof. rewrite dot_normal. exact methyl_margin. Qed.

Lemma C5_rotation_matrix_proper_witness :
  let bondDirection := bond_length_norm methyl in
  let c := Np.dot bondDirection (mkPoint3 0 0 1) in
  let V := v_x (Np.cross (mkPoint3 0 0 1) bondDirection) in
  let R := Np.madd (Np.madd Np.eye V) (Np.mscale (1 / (1 + c)) (Np.mdot V V)) in
  rotation_matrix bondDirection = Ok R /\
  Np.mdot R (Np.transpose R) = Np.eye /\
  Np.det R = 1 /\
  Np.mvdot R (mkPoint3 0 0 1) = bondDirection /\
  Np.dot bondDirection bondDirection = 1.
Proof.
  exact (C5_rotation_matrix_proper "CH3.xyz" methyl_table methyl
           methyl_init methyl_distinct methyl_dot_margin).
Defined.

(** C6. For c <> -1 the i-th returned point is centroid + R * t_i, where
    t_i is row i of the triangle that [find_centroid] has scaled, centroid
    the point [find_centroid] returns and R the rotation matrix; the points
    come in the order of the rows 0, 1, 2. *)
Theorem C6_points_are_centroid_plus_rotated_rows (self : Complex) :
  Np.dot (bond_length_norm self) (mkPoint3 0 0 1) <> -1 ->
  exists R : Matrix3,
    rotation_matrix (bond_length_norm self) = Ok R /\
    let centroid := fst (find_centroid self) in
    let scaled := equilateral_triangle (snd (find_centroid self)) in
    fst (generate_substituent_vectors self) =
    Ok (Np.add centroid (Np.mvdot R (row0 scaled)),
        Np.add centroid (Np.mvdot R (row1 scaled)),
        Np.add centroid (Np.mvdot R (row2 scaled))).
Proof.
  rewrite dot_normal. intros Hr.
  exists (rodrigues (bond_length_norm self)).
  split; [apply rotation_matrix_ok; exact Hr |].
  rewrite (generate_ok _ Hr). cbv zeta. cbn [fst]. rewrite !place_eq. reflexivity.
Qed.

Lemma C6_points_are_centroid_plus_rotated_rows_witness :
  exists R : Matrix3,
    rotation_matrix (bond_length_norm methyl) = Ok R /\
    let centroid := fst (find_centroid methyl) in
    let scaled := equilateral_triangle (snd (find_centroid methyl)) in
    fst (generate_substituent_vectors methyl) =
    Ok (Np.add centroid (Np.mvdot R (row0 scaled)),
        Np.add centroid (Np.mvdot R (row1 scaled)),
        Np.add centroid (Np.mvdot R (row2 scaled))).
Proof.
  exact (C6_points_are_centroid_plus_rotated_rows methyl methyl_dot_normal).
Defined.

(** C7, as stated, fails at centralAtom = (0,0,0), bondedAtom = (1,0,0):
    the input is valid and the second call on the same context returns
    other points than the first. *)
Lemma C7_counterexample :
  init "CH3.xyz" methyl_table = Some methyl /\
  atom_to_be_functionalized_xyz methyl <> bonded_atom_xyz methyl /\
  cosine (bond_length_norm methyl) <> -1 /\
  fst (generate_twice methyl) <> snd (generate_twice methyl).
Proof.
  split; [exact methyl_init |]. split; [exact methyl_distinct |].
  split; [exact methyl_regular |]. intros H.
  apply (twice_equal_iff _ _ _ methyl_init methyl_distinct methyl_regular) in H.
  pose proof methyl_edge_sq as He. rewrite H in He. lra.
Qed.

(** C7, amended.  Two contexts built from the same input return the same
    points.  On one context, for a valid input, the first call leaves the
    triangle scaled by s = L*2*sqrt(2/3) and the second call scales it again:
    the second call returns the points of the first exactly when s = 1. *)
Theorem C7_same_input_same_output_second_call_rescaled
    (path_to_data : string) (table : list LabeledAtom) (self : Complex) :
  init path_to_data table = Some self ->
  atom_to_be_functionalized_xyz self <> bonded_atom_xyz self ->
  cosine (bond_length_norm self) <> -1 ->
  (forall other : Complex,
      init path_to_data table = Some other ->
      fst (generate_substituent_vectors other) = fst (generate_substituent_vectors self)) /\
  (let s := distance (atom_to_be_functionalized_xyz self) (bonded_atom_xyz self)
            * 2 * sqrt (2 / 3) in
   fst (generate_twice self) = snd (generate_twice self) <-> s = 1).
Proof.
  intros Hi Hd Hr. split.
  - intros other Ho. rewrite Hi in Ho. injection Ho as <-. reflexivity.
  - cbv zeta. rewrite (distance_atoms _ _ _ Hi).
    replace (bond_norm self * 2 * sqrt (2 / 3)) with (edge self)
      by (unfold edge; replace (2.0 / 3.0) with (2 / 3) by lra; lra).
    exact (twice_equal_iff _ _ _ Hi Hd Hr).
Qed.

Lemma C7_same_input_same_output_second_call_rescaled_witness :
  (forall other : Complex,
      init "CH3.xyz" methyl_table = Some other ->
      fst (generate_substituent_vectors other) = fst (generate_substituent_vectors methyl)) /\
  (let s := distance (atom_to_be_functionalized_xyz methyl) (bonded_atom_xyz methyl)
            * 2 * sqrt (2 / 3) in
   fst (generate_twice methyl) = snd (generate_twice methyl) <-> s = 1).
Proof.
  exact (C7_same_input_same_output_second_call_rescaled "CH3.xyz" methyl_table methyl
           methyl_init methyl_distinct methyl_regular).
Defined.

(** C8. [find_centroid] changes only [equilateral_triangle], which it
    scales by s = L*2*sqrt(2/3), L the norm of the bond vector; the table of
    atoms, the two atoms, the bond vector and its unit direction are the same
    after [find_centroid] and after [generate_substituent_vectors], whether
    the latter returns or raises. *)
Theorem C8_only_triangle_is_mutated (self : Complex) :
  let s := Np.norm (bond_length self) * 2 * sqrt (2 / 3) in
  equilateral_triangle (snd (find_centroid self)) = Np.mscale s (equilateral_triangle self) /\
  same_but_triangle self (snd (find_centroid self)) /\
  same_but_triangle self (snd (generate_substituent_vectors self)) /\
  equilateral_triangle (snd (generate_substituent_vectors self))
  = Np.mscale s (equilateral_triangle self).
Proof.
  cbv zeta.
  replace (Np.norm (bond_length self) * 2 * sqrt (2 / 3)) with (edge self)
    by (unfold edge, bond_norm; replace (2.0 / 3.0) with (2 / 3) by lra; lra).
  split; [reflexivity |]. split; [| split; [apply generate_keeps |]].
  - rewrite find_centroid_eq. unfold same_but_triangle; cbn. repeat split; reflexivity.
  - destruct (Req_dec_T (cosine (bond_length_norm self)) (-1)) as [E | N].
    + rewrite (generate_raise _ E). reflexivity.
    + rewrite (generate_ok _ N). reflexivity.
Qed.

(** ** Lines of a text *)

Lemma no_line_end_no_CR (s : list ascii) : no_line_end s -> no_CR s.
Proof. apply Forall_impl. intros c [H _]; exact H. Qed.

Lemma no_line_end_app (a b : list ascii) :
  no_line_end a -> no_line_end b -> no_line_end (a ++ b).
Proof. intros Ha Hb. apply Forall_app; split; assumption. Qed.

Lemma no_CR_app (a b : list ascii) : no_CR a -> no_CR b -> no_CR (a ++ b).
Proof. intros Ha Hb. apply Forall_app; split; assumption. Qed.

Lemma no_line_end_space : no_line_end [" "%char].
Proof. repeat constructor; discriminate. Qed.

Lemma no_CR_LF : no_CR [LF].
Proof. repeat constructor. discriminate. Qed.

Lemma keepends_concat (s : list ascii) : List.concat (keepends s) = s.
Proof.
  induction s as [| c rest IH]; simpl; [reflexivity |].
  destruct (Ascii.eqb c LF).
  - simpl. rewrite IH. reflexivity.
  - destruct (keepends rest) as [| line lines]; simpl in *.
    + rewrite <- IH. reflexivity.
    + rewrite <- IH. reflexivity.
Qed.

Lemma keepends_nil (s : list ascii) : keepends s = [] -> s = [].
Proof.
  intros H. rewrite <- (keepends_concat s), H. reflexivity.
Qed.

Lemma keepends_app_LF (a b : list ascii) :
  keepends (a ++ LF :: b) = keepends (a ++ [LF]) ++ keepends b.
Proof.
  induction a as [| c a IH]; simpl; [reflexivity |].
  destruct (Ascii.eqb c LF).
  - rewrite IH. reflexivity.
  - rewrite IH. destruct (keepends (a ++ [LF])) as [| line lines] eqn:E.
    + apply keepends_nil in E. destruct a; discriminate.
    + reflexivity.
Qed.

Lemma keepends_one_line (r : list ascii) :
  no_line_end r -> keepends (r ++ [LF]) = [r ++ [LF]].
Proof.
  induction 1 as [| c r [_ Hc] _ IH]; simpl; [reflexivity |].
  destruct (Ascii.eqb_spec c LF) as [E | _]; [contradiction |].
  rewrite IH. reflexivity.
Qed.

Lemma update_last_snoc (f : list ascii -> list ascii) (lines : list (list ascii))
    (line : list ascii) :
  update_last f (lines ++ [line]) = lines ++ [f line].
Proof.
  induction lines as [| l lines IH]; simpl; [reflexivity |].
  rewrite IH. destruct (lines ++ [line]) eqn:E; [| reflexivity].
  destruct lines; discriminate.
Qed.

Lemma filter_keep_all (p : ascii -> bool) (s : list ascii) :
  Forall (fun c => p c = true) s -> filter p s = s.
Proof.
  induction 1 as [| c s Hc _ IH]; simpl; [reflexivity |].
  rewrite Hc, IH. reflexivity.
Qed.

Lemma strip_newlines_line (r : list ascii) :
  no_line_end r -> strip_newlines (r ++ [LF]) = r.
Proof.
  intros H. unfold strip_newlines.
  rewrite !filter_app. simpl.
  rewrite (filter_keep_all (fun c => negb (Ascii.eqb c CR)) r).
  - rewrite (filter_keep_all (fun c => negb (Ascii.eqb c LF)) r).
    + apply app_nil_r.
    + eapply Forall_impl; [| exact H]. intros c [_ Hc]; simpl.
      destruct (Ascii.eqb_spec c LF); [contradiction | reflexivity].
  - eapply Forall_impl; [| exact H]. intros c [Hc _]; simpl.
    destruct (Ascii.eqb_spec c CR); [contradiction | reflexivity].
Qed.

(** Stripping the last line of a text that ends with LF, a line without
    line ends and LF removes the last LF and nothing else. *)
Lemma strip_last_line (w r : list ascii) :
  no_line_end r ->
  exists line lines,
    keepends ((w ++ [LF]) ++ r ++ [LF]) = line :: lines /\
    List.concat (update_last strip_newlines (line :: lines)) = (w ++ [LF]) ++ r.
Proof.
  intros Hr.
  assert (E : keepends ((w ++ [LF]) ++ r ++ [LF]) = keepends (w ++ [LF]) ++ [r ++ [LF]]).
  { rewrite <- app_assoc. simpl. rewrite keepends_app_LF, (keepends_one_line r Hr).
    reflexivity. }
  destruct (keepends ((w ++ [LF]) ++ r ++ [LF])) as [| line lines] eqn:K.
  - symmetry in E. apply app_eq_nil in E. destruct E; discriminate.
  - exists line, lines. split; [reflexivity |].
    rewrite E, update_last_snoc, concat_app, keepends_concat, (strip_newlines_line r Hr).
    simpl. rewrite app_nil_r. reflexivity.
Qed.

(** ** Reading with universal newlines *)

Lemma universal_newlines_no_CR (s : list ascii) : no_CR s -> universal_newlines s = s.
Proof.
  induction 1 as [| c s Hc _ IH]; simpl; [reflexivity |].
  destruct (Ascii.eqb_spec c CR) as [E | _]; [contradiction |].
  rewrite IH. reflexivity.
Qed.

Lemma universal_newlines_app_bounded (b : list ascii) (n : nat) :
  no_leading_LF b ->
  forall a, (List.length a <= n)%nat ->
            universal_newlines (a ++ b) = universal_newlines a ++ universal_newlines b.
Proof.
  intros Hb. induction n as [| n IH]; intros a Ha.
  - destruct a; [reflexivity | simpl in Ha; lia].
  - destruct a as [| c a]; [reflexivity |]. simpl in Ha.
    cbn [app universal_newlines].
    destruct (Ascii.eqb c CR).
    + destruct a as [| d a].
      * cbn [app]. destruct b as [| e b]; [reflexivity |]. simpl in Hb.
        destruct (Ascii.eqb_spec e LF) as [E | _]; [contradiction | reflexivity].
      * cbn [app]. simpl in Ha. destruct (Ascii.eqb d LF).
        -- rewrite (IH a) by lia. reflexivity.
        -- change (d :: a ++ b) with ((d :: a) ++ b).
           rewrite (IH (d :: a)) by (simpl; lia). reflexivity.
    + rewrite (IH a) by lia. reflexivity.
Qed.

Lemma universal_newlines_app (a b : list ascii) :
  no_leading_LF b ->
  universal_newlines (a ++ b) = universal_newlines a ++ universal_newlines b.
Proof.
  intros Hb. apply (universal_newlines_app_bounded b (List.length a) Hb a). lia.
Qed.

(** ** Decimal numerals *)

Lemma string_of_uint_no_line_end (d : Decimal.uint) :
  no_line_end (list_ascii_of_string (NilEmpty.string_of_uint d)).
Proof.
  induction d; simpl; constructor; try assumption; split; discriminate.
Qed.

Lemma str_no_line_end (n : nat) : no_line_end (str n).
Proof. apply string_of_uint_no_line_end. Qed.

Lemma str_5 : str 5 = ["5"%char].
Proof. reflexivity. Qed.

(** ** What [write_xyz] leaves in the file *)

Lemma content_store (fs : FileSystem) (filename : string) (c : list ascii) :
  content (store fs filename c) filename = c.
Proof. unfold content, store. rewrite String.eqb_refl. reflexivity. Qed.

Lemma content_append (fs : FileSystem) (filename : string) (data : list ascii) :
  content (append fs filename data) filename = content fs filename ++ data.
Proof. unfold append. apply content_store. Qed.

Lemma store_other (fs : FileSystem) (filename other : string) (c : list ascii) :
  other <> filename -> store fs filename c other = fs other.
Proof.
  intros H. unfold store. apply String.eqb_neq in H. rewrite H. reflexivity.
Qed.

Section WriterFacts.

Variable csv_label : string -> list ascii.
Variable csv_float : R -> list ascii.
Hypothesis csv_float_no_line_end : forall x : R, no_line_end (csv_float x).

Lemma csv_row_no_line_end (a : LabeledAtom) :
  no_line_end (csv_label (atom a)) -> no_line_end (csv_row csv_label csv_float a).
Proof.
  intros Ha. unfold csv_row.
  repeat apply no_line_end_app; auto using no_line_end_space.
Qed.

Lemma write_xyz_ok (self self' : Complex) (fs : FileSystem) (filename : string)
    (a1 a2 a3 : string) (view_file save_file : bool)
    (v1 v2 v3 : Point3) (functionalized bonded : LabeledAtom) :
  generate_substituent_vectors self = (Ok (v1, v2, v3), self') ->
  nth_error (data_matrix self') (atom_to_be_functionalized_index self') = Some functionalized ->
  nth_error (data_matrix self') (bonded_atom_index self') = Some bonded ->
  no_line_end (csv_label (atom bonded)) ->
  no_line_end (csv_label (atom functionalized)) ->
  no_line_end (csv_label a1) -> no_line_end (csv_label a2) -> no_line_end (csv_label a3) ->
  exists fs' : FileSystem,
    write_xyz csv_label csv_float self fs filename a1 a2 a3 view_file save_file
    = (Ok (viewer_call filename view_file save_file), fs', self') /\
    fs' filename
    = Some (universal_newlines (content fs filename)
            ++ xyz_block csv_label csv_float (bonded_atom_index self') bonded functionalized
                         (mkAtom a1 v1) (mkAtom a2 v2) (mkAtom a3 v3)) /\
    (forall other : string, other <> filename -> fs' other = fs other).
Proof.
  intros Hg Hf Hb Lb Lf L1 L2 L3.
  unfold write_xyz. rewrite Hg, Hf, Hb. cbv zeta.
  set (P := content fs filename).
  set (rb := csv_row csv_label csv_float bonded).
  set (rf := csv_row csv_label csv_float functionalized).
  set (r1 := csv_row csv_label csv_float (mkAtom a1 v1)).
  set (r2 := csv_row csv_label csv_float (mkAtom a2 v2)).
  set (r3 := csv_row csv_label csv_float (mkAtom a3 v3)).
  set (idx := bonded_atom_index self').
  assert (Nb : no_line_end rb) by (apply csv_row_no_line_end; exact Lb).
  assert (Nf : no_line_end rf) by (apply csv_row_no_line_end; exact Lf).
  assert (N1 : no_line_end r1) by (apply csv_row_no_line_end; exact L1).
  assert (N2 : no_line_end r2) by (apply csv_row_no_line_end; exact L2).
  assert (N3 : no_line_end r3) by (apply csv_row_no_line_end; exact L3).
  set (fs3 := to_csv csv_label csv_float
                (append (append fs filename (str 5 ++ [LF])) filename (str idx ++ [LF]))
                filename _).
  set (Y := (str 5 ++ [LF]) ++ (str idx ++ [LF]) ++ (rb ++ [LF]) ++ (rf ++ [LF])
            ++ (r1 ++ [LF]) ++ (r2 ++ [LF]) ++ (r3 ++ [LF])).
  assert (HC : content fs3 filename = P ++ Y).
  { unfold fs3, to_csv. rewrite !content_append. fold P. unfold Y. simpl.
    fold rb rf r1 r2 r3. rewrite app_nil_r, <- !app_assoc. reflexivity. }
  assert (HY : universal_newlines Y = Y).
  { apply universal_newlines_no_CR. unfold Y.
    repeat apply no_CR_app;
      first [apply no_CR_LF
            | apply no_line_end_no_CR; auto using str_no_line_end, no_line_end_space]. }
  set (w := universal_newlines P ++ str 5 ++ [LF] ++ str idx ++ [LF]
            ++ rb ++ [LF] ++ rf ++ [LF] ++ r1 ++ [LF] ++ r2).
  assert (HR : readlines fs3 filename = keepends ((w ++ [LF]) ++ r3 ++ [LF])).
  { unfold readlines. rewrite HC, universal_newlines_app.
    - rewrite HY. f_equal. unfold w, Y. rewrite <- !app_assoc. reflexivity.
    - unfold Y. rewrite str_5. simpl. discriminate. }
  destruct (strip_last_line w r3 N3) as (line & lines & K & C).
  rewrite HR, K.
  eexists. split; [reflexivity |]. split.
  - unfold writelines, store. rewrite String.eqb_refl. f_equal.
    rewrite C. unfold w, xyz_block. fold rb rf r1 r2 r3.
    rewrite <- !app_assoc. reflexivity.
  - intros other Ho. unfold writelines, fs3, to_csv, append.
    rewrite !store_other by exact Ho. reflexivity.
Qed.

End WriterFacts.

Lemma keepends_cons_line (r rest : list ascii) :
  no_line_end r -> keepends (r ++ LF :: rest) = (r ++ [LF]) :: keepends rest.
Proof.
  intros H. rewrite keepends_app_LF, (keepends_one_line r H). reflexivity.
Qed.

Lemma keepends_last_line (r : list ascii) :
  no_line_end r -> r <> [] -> keepends r = [r].
Proof.
  induction 1 as [| c r [_ Hc] Hr IH]; intros Hn; [contradiction |].
  simpl. destruct (Ascii.eqb_spec c LF) as [E | _]; [contradiction |].
  destruct r as [| d r]; [reflexivity |].
  rewrite IH by discriminate. reflexivity.
Qed.


Section WriterClaims.

Variable csv_label : string -> list ascii.
Variable csv_float : R -> list ascii.
Hypothesis csv_float_no_line_end : forall x : R, no_line_end (csv_float x).

Variables (self : Complex) (fs : FileSystem) (filename : string).
Variables (a1 a2 a3 : string) (view_file save_file : bool).
Variables (v1 v2 v3 : Point3) (functionalized bonded : LabeledAtom).

Hypothesis generated : fst (generate_substituent_vectors self) = Ok (v1, v2, v3).
Hypothesis row_functionalized :
  nth_error (data_matrix self) (atom_to_be_functionalized_index self) = Some functionalized.
Hypothesis row_bonded :
  nth_error (data_matrix self) (bonded_atom_index self) = Some bonded.
Hypothesis label_bonded : no_line_end (csv_label (atom bonded)).
Hypothesis label_functionalized : no_line_end (csv_label (atom functionalized)).
Hypothesis label_1 : no_line_end (csv_label a1).
Hypothesis label_2 : no_line_end (csv_label a2).
Hypothesis label_3 : no_line_end (csv_label a3).

Let block : list ascii :=
  xyz_block csv_label csv_float (bonded_atom_index self) bonded functionalized
            (mkAtom a1 v1) (mkAtom a2 v2) (mkAtom a3 v3).

Lemma write_xyz_file :
  exists fs' : FileSystem,
    write_xyz csv_label csv_float self fs filename a1 a2 a3 view_file save_file
    = (Ok (viewer_call filename view_file save_file), fs',
       snd (generate_substituent_vectors self)) /\
    fs' filename = Some (universal_newlines (content fs filename) ++ block) /\
    (forall other : string, other <> filename -> fs' other = fs other).
Proof.
  pose proof (generate_keeps self) as (_ & Hd & Hfi & _ & Hbi & _).
  destruct (generate_substituent_vectors self) as [r self'] eqn:Hg.
  cbn [fst snd] in *. subst r.
  unfold block. rewrite <- Hbi.
  apply (write_xyz_ok csv_label csv_float csv_float_no_line_end self self'); auto.
  - rewrite Hd, Hfi. exact row_functionalized.
  - rewrite Hd, Hbi. exact row_bonded.
Qed.

Lemma csv_row_not_empty (a : LabeledAtom) : csv_row csv_label csv_float a <> [].
Proof.
  unfold csv_row. intros E. apply app_eq_nil in E. destruct E as [_ E]. discriminate.
Qed.



End WriterClaims.

(** ** A concrete run of the writer *)

Lemma zero_float_no_line_end (x : R) : no_line_end (zero_float x).
Proof. repeat constructor; discriminate. Qed.

Lemma plain_H_no_line_end : no_line_end (plain_label "H").
Proof. repeat constructor; discriminate. Qed.

Lemma plain_C_no_line_end : no_line_end (plain_label "C").
Proof. repeat constructor; discriminate. Qed.

Lemma methyl_generated :
  exists v1 v2 v3, fst (generate_substituent_vectors methyl) = Ok (v1, v2, v3).
Proof.
  rewrite (valid_result _ _ _ methyl_init methyl_regular). cbn [fst]. eauto.
Qed.

(** ** The claims on the writer *)



(** C10, as stated, fails for an output file that holds the line x ended by
    CR LF: [write_xyz] returns, and what the file holds afterwards does not
    begin with the old content, whose CR LF has become LF. *)
Lemma C10_counterexample :
  old_file "CH4.xyz"%string = Some old_text /\
  exists (call : ViewerCall) (fs' : FileSystem) (self' : Complex),
    write_xyz plain_label zero_float methyl old_file "CH4.xyz" "H" "H" "H" false false
    = (Ok call, fs', self') /\
    forall t : list ascii, fs' "CH4.xyz"%string <> Some (old_text ++ t).
Proof.
  split; [reflexivity |].
  destruct methyl_generated as (v1 & v2 & v3 & Hg).
  destruct (write_xyz_file plain_label zero_float zero_float_no_line_end
              methyl old_file "CH4.xyz" "H" "H" "H" false false v1 v2 v3
              (mkAtom "C" (mkPoint3 0 0 0)) (mkAtom "H" (mkPoint3 1 0 0))
              Hg eq_refl eq_refl
              plain_H_no_line_end plain_C_no_line_end
              plain_H_no_line_end plain_H_no_line_end plain_H_no_line_end)
    as (fs' & Hw & Hc & _).
  do 3 eexists. split; [exact Hw |].
  intros t E. rewrite Hc in E.
  change (universal_newlines (content old_file "CH4.xyz")) with ["x"%char; LF] in E.
  unfold old_text in E. cbn [app] in E. injection E as E. discriminate.
Qed.

(** C10, amended.  When the three points have been computed, the table
    has the two rows and the file holds 7-bit ASCII text (content that
    decodes when it is read back), [write_xyz] reaches its last statement,
    the call of the viewer, and the file then holds what it held before,
    with each CR LF and each CR turned into LF, followed by the two header
    lines and the five records without the last line end; a file without CR
    keeps its old content unchanged in front of them. *)
Theorem C10_old_content_kept_up_to_line_ends
    (csv_label : string -> list ascii) (csv_float : R -> list ascii)
    (self : Complex) (fs : FileSystem) (filename : string)
    (a1 a2 a3 : string) (view_file save_file : bool)
    (v1 v2 v3 : Point3) (functionalized bonded : LabeledAtom) :
  (forall x : R, no_line_end (csv_float x)) ->
  fst (generate_substituent_vectors self) = Ok (v1, v2, v3) ->
  nth_error (data_matrix self) (atom_to_be_functionalized_index self) = Some functionalized ->
  nth_error (data_matrix self) (bonded_atom_index self) = Some bonded ->
  no_line_end (csv_label (atom bonded)) ->
  no_line_end (csv_label (atom functionalized)) ->
  no_line_end (csv_label a1) -> no_line_end (csv_label a2) -> no_line_end (csv_label a3) ->
  seven_bit (content fs filename) ->
  let P := content fs filename in
  let block := xyz_block csv_label csv_float (bonded_atom_index self) bonded functionalized
                         (mkAtom a1 v1) (mkAtom a2 v2) (mkAtom a3 v3) in
  exists (call : ViewerCall) (fs' : FileSystem) (self' : Complex),
    write_xyz csv_label csv_float self fs filename a1 a2 a3 view_file save_file
    = (Ok call, fs', self') /\
    fs' filename = Some (universal_newlines P ++ block) /\
    (no_CR P -> fs' filename = Some (P ++ block)).
Proof.
  intros Hfl Hg Hf Hb Lb Lf L1 L2 L3 _ P block.
  destruct (write_xyz_file csv_label csv_float Hfl self fs filename a1 a2 a3
              view_file save_file v1 v2 v3 functionalized bonded
              Hg Hf Hb Lb Lf L1 L2 L3) as (fs' & Hw & Hc & _).
  do 3 eexists. split; [exact Hw |]. split; [exact Hc |].
  intros HP. rewrite Hc. fold P. rewrite (universal_newlines_no_CR P HP). reflexivity.
Qed.

Lemma old_text_seven_bit : seven_bit (content old_file "CH4.xyz").
Proof. repeat (constructor; [cbn; lia |]). constructor. Qed.

Lemma C10_old_content_kept_up_to_line_ends_witness :
  exists v1 v2 v3,
    fst (generate_substituent_vectors methyl) = Ok (v1, v2, v3) /\
    let P := content old_file "CH4.xyz" in
    let block := xyz_block plain_label zero_float (bonded_atom_index methyl)
                           (mkAtom "H" (mkPoint3 1 0 0)) (mkAtom "C" (mkPoint3 0 0 0))
                           (mkAtom "H" v1) (mkAtom "H" v2) (mkAtom "H" v3) in
    exists (call : ViewerCall) (fs' : FileSystem) (self' : Complex),
      write_xyz plain_label zero_float methyl old_file "CH4.xyz" "H" "H" "H" false false
      = (Ok call, fs', self') /\
      fs' "CH4.xyz"%string = Some (universal_newlines P ++ block) /\
      (no_CR P -> fs' "CH4.xyz"%string = Some (P ++ block)).
Proof.
  destruct methyl_generated as (v1 & v2 & v3 & Hg).
  exists v1, v2, v3. split; [exact Hg |].
  exact (C10_old_content_kept_up_to_line_ends plain_label zero_float methyl old_file
           "CH4.xyz" "H" "H" "H" false false v1 v2 v3
           (mkAtom "C" (mkPoint3 0 0 0)) (mkAtom "H" (mkPoint3 1 0 0))
           zero_float_no_line_end Hg eq_refl eq_refl
           plain_H_no_line_end plain_C_no_line_end
           plain_H_no_line_end plain_H_no_line_end plain_H_no_line_end
           old_text_seven_bit).
Defined.

(** * Further properties of the code *)

(** ** [distance] is a metric *)

(** X1. [distance a b] is zero exactly when the two points are equal. *)
Theorem X1_distance_zero_iff_equal (a b : Point3) : distance a b = 0 <-> a = b.
Proof.
  rewrite distance_norm. split.
  - intros H. apply -> norm_zero_iff in H. apply -> sub_zero_iff in H. exact H.
  - intros H. apply norm_zero_iff. apply sub_zero_iff. exact H.
Qed.

(** X2. [distance] does not depend on the order of its arguments. *)
Theorem X2_distance_symmetric (a b : Point3) : distance a b = distance b a.
Proof.
  unfold distance. cbv zeta. f_equal. cbv [Np.sub p0 p1 p2]. ring.
Qed.

(** Lagrange's identity gives the inequality of Cauchy and Schwarz. *)
Lemma dot_sq_le (x y : Point3) : Np.dot x y * Np.dot x y <= Np.dot x x * Np.dot y y.
Proof.
  destruct x as [a b c], y as [d e f]. cbv [Np.dot p0 p1 p2].
  pose proof (Rle_0_sqr (a * e - b * d)) as H1.
  pose proof (Rle_0_sqr (a * f - c * d)) as H2.
  pose proof (Rle_0_sqr (b * f - c * e)) as H3.
  unfold Rsqr in *. nra.
Qed.

Lemma norm_mult_sq (x y : Point3) :
  (Np.norm x * Np.norm y) * (Np.norm x * Np.norm y) = Np.dot x x * Np.dot y y.
Proof. rewrite <- (norm_sq x), <- (norm_sq y). ring. Qed.

Lemma cauchy_schwarz (x y : Point3) :
  - (Np.norm x * Np.norm y) <= Np.dot x y <= Np.norm x * Np.norm y.
Proof.
  pose proof (dot_sq_le x y) as H. rewrite <- norm_mult_sq in H.
  pose proof (norm_nonneg x) as Hx. pose proof (norm_nonneg y) as Hy.
  assert (Hp : 0 <= Np.norm x * Np.norm y) by nra.
  set (n := Np.norm x * Np.norm y) in *. set (d := Np.dot x y) in *.
  split; nra.
Qed.

Lemma norm_triangle (x y : Point3) : Np.norm (Np.add x y) <= Np.norm x + Np.norm y.
Proof.
  pose proof (norm_nonneg x) as Hx. pose proof (norm_nonneg y) as Hy.
  pose proof (norm_nonneg (Np.add x y)) as Hxy.
  pose proof (cauchy_schwarz x y) as [_ Hc].
  assert (E : Np.norm (Np.add x y) * Np.norm (Np.add x y)
              = Np.norm x * Np.norm x + 2 * Np.dot x y + Np.norm y * Np.norm y).
  { rewrite !norm_sq. cbv [Np.dot Np.add p0 p1 p2]. ring. }
  nra.
Qed.

(** X3. [distance] satisfies the triangle inequality. *)
Theorem X3_distance_triangle (a b c : Point3) :
  distance a c <= distance a b + distance b c.
Proof.
  rewrite !distance_norm.
  replace (Np.sub a c) with (Np.add (Np.sub a b) (Np.sub b c))
    by (apply point3_eq; cbv [Np.add Np.sub p0 p1 p2]; ring).
  apply norm_triangle.
Qed.

(** ** [find_angle] *)

Lemma find_angle_eq (v1 v2 : Point3) :
  find_angle v1 v2 = acos (Np.dot v1 v2 / (Np.norm v1 * Np.norm v2)) * 57.29577951308232.
Proof. reflexivity. Qed.

Lemma norm_pos (v : Point3) : v <> Np.zeros -> 0 < Np.norm v.
Proof.
  intros H. pose proof (norm_nonneg v) as Hn.
  destruct (Req_dec_T (Np.norm v) 0) as [E | N]; [| lra].
  apply -> norm_zero_iff in E. contradiction.
Qed.

(** The quotient that [find_angle] hands to [np.arccos] is a cosine. *)
Lemma cos_th_bound (v1 v2 : Point3) :
  v1 <> Np.zeros -> v2 <> Np.zeros ->
  -1 <= Np.dot v1 v2 / (Np.norm v1 * Np.norm v2) <= 1.
Proof.
  intros H1 H2. pose proof (norm_pos v1 H1) as P1. pose proof (norm_pos v2 H2) as P2.
  pose proof (cauchy_schwarz v1 v2) as [Hl Hu].
  assert (Hp : 0 < Np.norm v1 * Np.norm v2) by nra.
  set (n := Np.norm v1 * Np.norm v2) in *. set (d := Np.dot v1 v2) in *.
  split.
  - apply (Rmult_le_reg_r n); [exact Hp |]. unfold Rdiv.
    rewrite Rmult_assoc, Rinv_l by lra. lra.
  - apply (Rmult_le_reg_r n); [exact Hp |]. unfold Rdiv.
    rewrite Rmult_assoc, Rinv_l by lra. lra.
Qed.

Lemma norm_scale (k : R) (v : Point3) : 0 <= k -> Np.norm (Np.scale k v) = k * Np.norm v.
Proof.
  intros Hk. apply sq_eq_nonneg.
  - apply norm_nonneg.
  - pose proof (norm_nonneg v). nra.
  - rewrite norm_sq.
    replace (k * Np.norm v * (k * Np.norm v)) with (k * k * (Np.norm v * Np.norm v)) by ring.
    rewrite norm_sq. cbv [Np.dot Np.scale p0 p1 p2]. ring.
Qed.

Lemma norm_scale_neg (k : R) (v : Point3) : 0 <= k -> Np.norm (Np.scale (- k) v) = k * Np.norm v.
Proof.
  intros Hk. rewrite <- (norm_scale k v Hk). unfold Np.norm. f_equal.
  cbv [Np.dot Np.scale p0 p1 p2]. ring.
Qed.

(** X4. [find_angle] does not depend on the order of the two vectors. *)
Theorem X4_find_angle_symmetric (v1 v2 : Point3) : find_angle v1 v2 = find_angle v2 v1.
Proof.
  rewrite !find_angle_eq.
  replace (Np.dot v2 v1) with (Np.dot v1 v2) by (cbv [Np.dot]; ring).
  replace (Np.norm v2 * Np.norm v1) with (Np.norm v1 * Np.norm v2) by ring.
  reflexivity.
Qed.

(** The quotient of two non-zero vectors that are not close to parallel
    is away from 1 and -1. *)
Lemma cos_th_margin (v1 v2 : Point3) :
  v1 <> Np.zeros -> v2 <> Np.zeros ->
  Rabs (Np.dot v1 v2) <= (1 - 1 / 1000000) * (Np.norm v1 * Np.norm v2) ->
  - (1 - 1 / 1000000) <= Np.dot v1 v2 / (Np.norm v1 * Np.norm v2) <= 1 - 1 / 1000000.
Proof.
  intros H1 H2 Hm. pose proof (norm_pos v1 H1) as P1. pose proof (norm_pos v2 H2) as P2.
  assert (Hp : 0 < Np.norm v1 * Np.norm v2) by nra.
  set (n := Np.norm v1 * Np.norm v2) in *. set (d := Np.dot v1 v2) in *.
  assert (Hl : d <= Rabs d) by apply Rle_abs.
  assert (Hu : - d <= Rabs d) by (rewrite <- Rabs_Ropp; apply Rle_abs).
  split.
  - apply (Rmult_le_reg_r n); [exact Hp |]. unfold Rdiv.
    rewrite Rmult_assoc, Rinv_l by lra. lra.
  - apply (Rmult_le_reg_r n); [exact Hp |]. unfold Rdiv.
    rewrite Rmult_assoc, Rinv_l by lra. lra.
Qed.

(** X5. For two non-zero vectors that are not close to parallel or
    anti-parallel, |v1.v2| <= (1 - 1/1000000) |v1| |v2|, the quotient handed
    to [np.arccos] lies between -(1 - 1/1000000) and 1 - 1/1000000,
    [find_angle] lies strictly between 0 and pi * 57.29577951308232, and
    divided by 57.29577951308232 it is an angle whose cosine is the scalar
    product over the product of the norms. *)
Theorem X5_find_angle_is_the_angle (v1 v2 : Point3) :
  v1 <> Np.zeros -> v2 <> Np.zeros ->
  Rabs (Np.dot v1 v2) <= (1 - 1 / 1000000) * (Np.norm v1 * Np.norm v2) ->
  - (1 - 1 / 1000000) <= Np.dot v1 v2 / (Np.norm v1 * Np.norm v2) <= 1 - 1 / 1000000 /\
  0 < find_angle v1 v2 < PI * 57.29577951308232 /\
  cos (find_angle v1 v2 / 57.29577951308232) = Np.dot v1 v2 / (Np.norm v1 * Np.norm v2).
Proof.
  intros H1 H2 Hm. pose proof (cos_th_margin v1 v2 H1 H2 Hm) as Hq.
  split; [exact Hq |]. rewrite find_angle_eq.
  set (x := Np.dot v1 v2 / (Np.norm v1 * Np.norm v2)) in *.
  assert (Hx : -1 < x < 1) by lra.
  pose proof (acos_bound_lt x Hx) as [Hl Hu]. split.
  - split; nra.
  - replace (acos x * 57.29577951308232 / 57.29577951308232) with (acos x) by (field; lra).
    apply cos_acos. lra.
Qed.

Lemma e_x_nonzero : e_x <> Np.zeros.
Proof. intros H. apply (f_equal p0) in H. simpl in H. lra. Qed.

Lemma e_y_nonzero : e_y <> Np.zeros.
Proof. intros H. apply (f_equal p1) in H. simpl in H. lra. Qed.

Lemma e_x_e_y_margin :
  Rabs (Np.dot e_x e_y) <= (1 - 1 / 1000000) * (Np.norm e_x * Np.norm e_y).
Proof.
  replace (Np.dot e_x e_y) with 0 by (cbv [Np.dot e_x e_y p0 p1 p2]; ring).
  rewrite Rabs_R0. pose proof (norm_nonneg e_x). pose proof (norm_nonneg e_y). nra.
Qed.

Lemma X5_find_angle_is_the_angle_witness :
  - (1 - 1 / 1000000) <= Np.dot e_x e_y / (Np.norm e_x * Np.norm e_y) <= 1 - 1 / 1000000 /\
  0 < find_angle e_x e_y < PI * 57.29577951308232 /\
  cos (find_angle e_x e_y / 57.29577951308232) = Np.dot e_x e_y / (Np.norm e_x * Np.norm e_y).
Proof.
  exact (X5_find_angle_is_the_angle e_x e_y e_x_nonzero e_y_nonzero e_x_e_y_margin).
Defined.

(** X7. For two non-zero orthogonal vectors [find_angle] is
    pi/2 * 57.29577951308232. *)
Theorem X7_find_angle_orthogonal (v1 v2 : Point3) :
  v1 <> Np.zeros -> v2 <> Np.zeros -> Np.dot v1 v2 = 0 ->
  find_angle v1 v2 = PI / 2 * 57.29577951308232.
Proof.
  intros _ _ H. rewrite find_angle_eq, H. unfold Rdiv at 1. rewrite Rmult_0_l, acos_0.
  reflexivity.
Qed.

Lemma X7_find_angle_orthogonal_witness : find_angle e_x e_y = PI / 2 * 57.29577951308232.
Proof.
  apply (X7_find_angle_orthogonal e_x e_y e_x_nonzero e_y_nonzero).
  cbv [Np.dot e_x e_y p0 p1 p2]. ring.
Defined.

(** X8. Stretching one of two non-zero vectors that are not close to
    parallel or anti-parallel, |v1.v2| <= (1 - 1/1000000) |v1| |v2|, by
    [k > 0] does not change [find_angle], and the stretched pair is as far
    from parallel as the pair was. *)
Theorem X8_find_angle_scale_invariant (v1 v2 : Point3) (k : R) :
  v1 <> Np.zeros -> v2 <> Np.zeros -> 0 < k ->
  Rabs (Np.dot v1 v2) <= (1 - 1 / 1000000) * (Np.norm v1 * Np.norm v2) ->
  find_angle (Np.scale k v1) v2 = find_angle v1 v2 /\
  Rabs (Np.dot (Np.scale k v1) v2)
  <= (1 - 1 / 1000000) * (Np.norm (Np.scale k v1) * Np.norm v2).
Proof.
  intros H1 H2 Hk Hm. pose proof (norm_pos v1 H1) as P1. pose proof (norm_pos v2 H2) as P2.
  assert (Ed : Np.dot (Np.scale k v1) v2 = k * Np.dot v1 v2)
    by (cbv [Np.dot Np.scale p0 p1 p2]; ring).
  split.
  - rewrite !find_angle_eq, norm_scale, Ed by lra.
    replace (k * Np.dot v1 v2 / (k * Np.norm v1 * Np.norm v2))
      with (Np.dot v1 v2 / (Np.norm v1 * Np.norm v2)) by (field; lra).
    reflexivity.
  - rewrite norm_scale, Ed, Rabs_mult, (Rabs_pos_eq k) by lra.
    pose proof (Rabs_pos (Np.dot v1 v2)). nra.
Qed.

Lemma X8_find_angle_scale_invariant_witness :
  find_angle (Np.scale 2 e_x) e_y = find_angle e_x e_y /\
  Rabs (Np.dot (Np.scale 2 e_x) e_y)
  <= (1 - 1 / 1000000) * (Np.norm (Np.scale 2 e_x) * Np.norm e_y).
Proof.
  apply (X8_find_angle_scale_invariant e_x e_y 2 e_x_nonzero e_y_nonzero);
    [lra | exact e_x_e_y_margin].
Defined.

(** ** [__init__] *)

(** X9. [__init__] fails exactly when the table has fewer than two rows. *)
Theorem X9_init_fails_iff_short_table (path_to_data : string) (table : list LabeledAtom) :
  init path_to_data table = None <-> (List.length table < 2)%nat.
Proof.
  unfold init. destruct table as [| a [| b rest]]; simpl.
  - split; [lia | reflexivity].
  - split; [lia | reflexivity].
  - split; [discriminate | lia].
Qed.

(** X10. After [__init__] on a table whose first two atoms are at distinct
    places, [bond_length] is the first position minus the second,
    [bond_length_norm] has norm 1, and [bond_length] is its norm times
    [bond_length_norm]. *)
Theorem X10_init_unit_direction
    (path_to_data : string) (table : list LabeledAtom) (self : Complex)
    (functionalized bonded : LabeledAtom) :
  init path_to_data table = Some self ->
  nth_error table 0%nat = Some functionalized ->
  nth_error table 1%nat = Some bonded ->
  xyz functionalized <> xyz bonded ->
  bond_length self = Np.sub (xyz functionalized) (xyz bonded) /\
  Np.norm (bond_length_norm self) = 1 /\
  Np.scale (Np.norm (bond_length self)) (bond_length_norm self) = bond_length self.
Proof.
  intros Hi H0 H1 Hd. unfold init in Hi. rewrite H0, H1 in Hi. injection Hi as <-.
  cbn [bond_length bond_length_norm].
  set (b := Np.sub (xyz functionalized) (xyz bonded)).
  assert (Hn : Np.norm b <> 0).
  { intros E. apply -> norm_zero_iff in E. apply -> sub_zero_iff in E. contradiction. }
  split; [reflexivity |]. split.
  - unfold Np.norm at 1. rewrite (unit_direction b Hn). apply sqrt_1.
  - apply point3_eq; cbv [Np.scale Np.div p0 p1 p2]; field; exact Hn.
Qed.

Lemma X10_init_unit_direction_witness :
  bond_length methyl = Np.sub (mkPoint3 0 0 0) (mkPoint3 1 0 0) /\
  Np.norm (bond_length_norm methyl) = 1 /\
  Np.scale (Np.norm (bond_length methyl)) (bond_length_norm methyl) = bond_length methyl.
Proof.
  apply (X10_init_unit_direction "CH3.xyz" methyl_table methyl
           (mkAtom "C" (mkPoint3 0 0 0)) (mkAtom "H" (mkPoint3 1 0 0))
           methyl_init eq_refl eq_refl).
  exact methyl_distinct.
Defined.

(** X11. The array [equilateral_triangle] of [__init__] is what its comment
    says: its three points are in the plane z = 0, their sum is the origin,
    and they are at distance 1 from one another. *)
Theorem X11_canonical_triangle_equilateral :
  p2 (row0 canonical_triangle) = 0 /\ p2 (row1 canonical_triangle) = 0 /\
  p2 (row2 canonical_triangle) = 0 /\
  Np.add (Np.add (row0 canonical_triangle) (row1 canonical_triangle))
         (row2 canonical_triangle) = Np.zeros /\
  distance (row0 canonical_triangle) (row1 canonical_triangle) = 1 /\
  distance (row0 canonical_triangle) (row2 canonical_triangle) = 1 /\
  distance (row1 canonical_triangle) (row2 canonical_triangle) = 1.
Proof.
  assert (M : Np.mscale 1 canonical_triangle = canonical_triangle) by apply mscale_one.
  pose proof (scaled_side_sq 1) as (S01 & S02 & S12). cbv zeta in *. rewrite M in *.
  repeat split; try reflexivity.
  - apply point3_eq; cbv [Np.add Np.zeros canonical_triangle row0 row1 row2 p0 p1 p2]; lra.
  - apply sq_eq_nonneg; [apply distance_nonneg | lra | rewrite distance_sq, S01; ring].
  - apply sq_eq_nonneg; [apply distance_nonneg | lra | rewrite distance_sq, S02; ring].
  - apply sq_eq_nonneg; [apply distance_nonneg | lra | rewrite distance_sq, S12; ring].
Qed.

(** ** [find_centroid] *)

(** X12. For distinct atoms at distance L, the point that [find_centroid]
    returns is at distance s/3 from the central atom and at distance
    L + s/3 from the bonded atom, with s = L*2*sqrt(2/3): it lies on the line
    of the bond, behind the central atom as seen from the bonded atom. *)
Theorem X12_centroid_on_bond_axis
    (path_to_data : string) (table : list LabeledAtom) (self : Complex) :
  init path_to_data table = Some self ->
  atom_to_be_functionalized_xyz self <> bonded_atom_xyz self ->
  let A := atom_to_be_functionalized_xyz self in
  let B := bonded_atom_xyz self in
  let L := distance A B in
  let s := L * 2 * sqrt (2 / 3) in
  distance A (fst (find_centroid self)) = s / 3 /\
  distance B (fst (find_centroid self)) = L + s / 3.
Proof.
  intros Hi Hd. cbv zeta. rewrite (distance_atoms _ _ _ Hi).
  replace (bond_norm self * 2 * sqrt (2 / 3)) with (edge self)
    by (unfold edge; replace (2.0 / 3.0) with (2 / 3) by lra; lra).
  pose proof (init_unit _ _ _ Hi Hd) as Hu.
  pose proof (valid_L_pos _ _ _ Hi Hd) as HL.
  pose proof (valid_s_pos _ _ _ Hi Hd) as Hs.
  rewrite find_centroid_eq. cbn [fst].
  replace (edge self / 3.0) with (edge self / 3) by lra.
  set (u := bond_length_norm self) in *. set (A := atom_to_be_functionalized_xyz self).
  split.
  - apply sq_eq_nonneg; [apply distance_nonneg | lra |].
    rewrite distance_sq, dot_sub_neg.
    replace (Np.dot (Np.scale (edge self / 3) u) (Np.scale (edge self / 3) u))
      with (edge self / 3 * (edge self / 3) * Np.dot u u)
      by (cbv [Np.dot Np.scale p0 p1 p2]; ring).
    rewrite Hu. ring.
  - apply sq_eq_nonneg; [apply distance_nonneg | lra |].
    rewrite distance_sq, (valid_bonded_atom _ _ _ Hi Hd). fold A u.
    replace (Np.dot (Np.sub (Np.sub A (Np.scale (bond_norm self) u))
                            (Np.add A (Np.scale (edge self / 3) u)))
                    (Np.sub (Np.sub A (Np.scale (bond_norm self) u))
                            (Np.add A (Np.scale (edge self / 3) u))))
      with ((bond_norm self + edge self / 3) * (bond_norm self + edge self / 3) * Np.dot u u)
      by (cbv [Np.dot Np.scale Np.sub Np.add p0 p1 p2]; ring).
    rewrite Hu. ring.
Qed.

Lemma X12_centroid_on_bond_axis_witness :
  let A := atom_to_be_functionalized_xyz methyl in
  let B := bonded_atom_xyz methyl in
  let L := distance A B in
  let s := L * 2 * sqrt (2 / 3) in
  distance A (fst (find_centroid methyl)) = s / 3 /\
  distance B (fst (find_centroid methyl)) = L + s / 3.
Proof.
  exact (X12_centroid_on_bond_axis "CH3.xyz" methyl_table methyl methyl_init methyl_distinct).
Defined.

Lemma mscale_mscale (a b : R) (m : Matrix3) :
  Np.mscale a (Np.mscale b m) = Np.mscale (a * b) m.
Proof.
  unfold Np.mscale. f_equal; apply point3_eq;
    cbv [Np.scale row0 row1 row2 p0 p1 p2]; ring.
Qed.

Lemma find_centroid_times_keeps (n : nat) (self : Complex) :
  same_but_triangle self (find_centroid_times n self).
Proof.
  induction n as [| n IH]; cbn [find_centroid_times].
  - unfold same_but_triangle. repeat split; reflexivity.
  - rewrite find_centroid_eq. cbn [snd].
    unfold same_but_triangle in *. cbn. exact IH.
Qed.

(** X13. [find_centroid] called [n] times on one context returns the same
    point each time and leaves the triangle scaled by the n-th power of
    s = |bond_length| * (2*sqrt(2/3)). *)
Theorem X13_find_centroid_repeated (n : nat) (self : Complex) :
  let s := Np.norm (bond_length self) * (2 * sqrt (2 / 3)) in
  fst (find_centroid (find_centroid_times n self)) = fst (find_centroid self) /\
  equilateral_triangle (find_centroid_times n self)
  = Np.mscale (s ^ n) (equilateral_triangle self).
Proof.
  cbv zeta.
  replace (Np.norm (bond_length self) * (2 * sqrt (2 / 3))) with (edge self)
    by (unfold edge, bond_norm; replace (2.0 / 3.0) with (2 / 3) by lra; lra).
  pose proof (find_centroid_times_keeps n self) as (_ & _ & _ & HA & _ & _ & Hb & Hu).
  split.
  - rewrite !find_centroid_eq. cbn [fst]. unfold edge, bond_norm. rewrite HA, Hb, Hu.
    reflexivity.
  - clear HA Hb Hu. induction n as [| n IH]; cbn [find_centroid_times pow].
    + rewrite mscale_one. reflexivity.
    + rewrite find_centroid_eq. cbn [snd equilateral_triangle set_equilateral_triangle].
      pose proof (find_centroid_times_keeps n self) as (_ & _ & _ & _ & _ & _ & Hb & _).
      unfold edge at 1, bond_norm. rewrite Hb. fold (bond_norm self). fold (edge self).
      rewrite IH, mscale_mscale. reflexivity.
Qed.

(** ** The rotation *)

(** X17. For a unit bond direction that keeps the distance
    1 + c >= 1/10000 from the singular direction, the rotation matrix keeps
    the scalar product of any two vectors, hence lengths and angles.  (Over
    the reals; the program is within rounding of it on these directions.) *)
Theorem X17_rotation_keeps_scalar_products (u a b : Point3) :
  Np.dot u u = 1 -> 1 / 10000 <= 1 + Np.dot u (mkPoint3 0 0 1) ->
  exists R : Matrix3,
    rotation_matrix u = Ok R /\
    Np.dot (Np.mvdot R a) (Np.mvdot R b) = Np.dot a b.
Proof.
  rewrite dot_normal. intros Hu Hm.
  assert (Hr : cosine u <> -1) by lra. clear Hm. exists (rodrigues u).
  split; [apply rotation_matrix_ok; exact Hr |].
  assert (Hk : / (1 + p2 u) * (1 + p2 u) = 1)
    by (apply Rinv_l; rewrite cosine_eq in Hr; lra).
  unfold rodrigues. rewrite cosine_eq, normal_vector_eq.
  unfold Rdiv. rewrite Rmult_1_l. set (k := / (1 + p2 u)) in *. clearbody k. clear Hr.
  destruct u as [u0 u1 u2], a as [a0 a1 a2], b as [b0 b1 b2].
  cbv [Np.mvdot Np.mdot Np.madd Np.mscale Np.col0 Np.col1 Np.col2 Np.eye v_x Np.cross
       Np.dot Np.add Np.scale p0 p1 p2 row0 row1 row2] in *.
  nsatz.
Qed.

Lemma e_x_unit : Np.dot e_x e_x = 1.
Proof. cbv [Np.dot e_x p0 p1 p2]. ring. Qed.

Lemma e_x_margin : 1 / 10000 <= 1 + Np.dot e_x (mkPoint3 0 0 1).
Proof. cbv [Np.dot e_x p0 p1 p2]. lra. Qed.

Lemma X17_rotation_keeps_scalar_products_witness :
  exists R : Matrix3,
    rotation_matrix e_x = Ok R /\
    Np.dot (Np.mvdot R e_x) (Np.mvdot R e_y) = Np.dot e_x e_y.
Proof. exact (X17_rotation_keeps_scalar_products e_x e_x e_y e_x_unit e_x_margin). Defined.

(** ** The returned points *)

Lemma mvdot_add3 (m : Matrix3) (r s t : Point3) :
  Np.add (Np.add (Np.mvdot m r) (Np.mvdot m s)) (Np.mvdot m t)
  = Np.mvdot m (Np.add (Np.add r s) t).
Proof. apply point3_eq; cbv [Np.mvdot Np.dot Np.add p0 p1 p2]; ring. Qed.

Lemma mvdot_zeros (m : Matrix3) : Np.mvdot m Np.zeros = Np.zeros.
Proof. apply point3_eq; cbv [Np.mvdot Np.dot Np.zeros p0 p1 p2]; ring. Qed.

Lemma scaled_rows_sum (s : R) :
  let T := Np.mscale s canonical_triangle in
  Np.add (Np.add (row0 T) (row1 T)) (row2 T) = Np.zeros.
Proof.
  apply point3_eq;
    cbv [Np.add Np.zeros Np.mscale Np.scale canonical_triangle row0 row1 row2 p0 p1 p2]; lra.
Qed.

(** Scalar products of two different vertices of the scaled triangle. *)
Lemma scaled_row_dot (s : R) :
  let T := Np.mscale s canonical_triangle in
  Np.dot (row0 T) (row1 T) = - (s * s / 6) /\
  Np.dot (row0 T) (row2 T) = - (s * s / 6) /\
  Np.dot (row1 T) (row2 T) = - (s * s / 6).
Proof.
  open_triangle.
  assert (H3 : 3 * (i * i) = 1) by (rewrite Hii; field).
  repeat split; nra.
Qed.

Lemma dot_comm (a b : Point3) : Np.dot a b = Np.dot b a.
Proof. cbv [Np.dot]. ring. Qed.

Section Returned.

Variables (path_to_data : string) (table : list LabeledAtom) (self : Complex).
Hypothesis from_init : init path_to_data table = Some self.
Hypothesis distinct : atom_to_be_functionalized_xyz self <> bonded_atom_xyz self.
Hypothesis regular : cosine (bond_length_norm self) <> -1.

Let A := atom_to_be_functionalized_xyz self.
Let B := bonded_atom_xyz self.
Let u := bond_length_norm self.
Let L := bond_norm self.
Let s := edge self.
Let c := Np.add A (Np.scale (s / 3.0) u).
Let placed (t : Point3) : Point3 := place c (rodrigues u) t.

Lemma placed_minus_centroid (t : Point3) :
  Np.sub (placed t) c = Np.mvdot (rodrigues u) t.
Proof.
  unfold placed. rewrite place_eq. apply point3_eq; cbv [Np.sub Np.add p0 p1 p2]; ring.
Qed.

Lemma placed_minus_center (t : Point3) :
  Np.sub (placed t) A = Np.add (Np.scale (s / 3) u) (Np.mvdot (rodrigues u) t).
Proof.
  unfold placed, c. rewrite place_eq.
  apply point3_eq; cbv [Np.sub Np.add Np.scale p0 p1 p2]; lra.
Qed.

Lemma bonded_minus_center : Np.sub B A = Np.scale (- L) u.
Proof.
  unfold B. rewrite (valid_bonded_atom _ _ _ from_init distinct). fold A u L.
  apply point3_eq; cbv [Np.sub Np.scale p0 p1 p2]; ring.
Qed.

Lemma norm_placed_minus_center (t : Point3) :
  p2 t = 0 -> Np.dot t t = s * s / 3 -> Np.norm (Np.sub (placed t) A) = 2 / 3 * s.
Proof.
  intros Hz Ht. rewrite <- distance_norm.
  replace (distance (placed t) A) with (distance A (placed t))
    by (rewrite !distance_norm; unfold Np.norm; f_equal;
        cbv [Np.dot Np.sub p0 p1 p2]; ring).
  apply (valid_center _ _ _ from_init distinct regular); assumption.
Qed.

Lemma norm_bonded_minus_center : Np.norm (Np.sub B A) = L.
Proof.
  pose proof (valid_L_pos _ _ _ from_init distinct) as HL. fold L in HL.
  rewrite bonded_minus_center.
  apply sq_eq_nonneg; [apply norm_nonneg | lra |].
  rewrite norm_sq.
  replace (Np.dot (Np.scale (- L) u) (Np.scale (- L) u)) with (L * L * Np.dot u u)
    by (cbv [Np.dot Np.scale p0 p1 p2]; ring).
  unfold u. rewrite (valid_unit _ _ _ from_init distinct). ring.
Qed.

Lemma dot_bonded_placed (t : Point3) :
  p2 t = 0 -> Np.dot (Np.sub B A) (Np.sub (placed t) A) = - (L * (s / 3)).
Proof.
  intros Hz. rewrite bonded_minus_center, placed_minus_center.
  set (w := Np.mvdot (rodrigues u) t).
  replace (Np.dot (Np.scale (- L) u) (Np.add (Np.scale (s / 3) u) w))
    with (- (L * (s / 3)) * Np.dot u u - L * Np.dot u w)
    by (cbv [Np.dot Np.scale Np.add p0 p1 p2]; ring).
  unfold w, u.
  rewrite (valid_unit _ _ _ from_init distinct),
    (rodrigues_plane_orth _ (valid_unit _ _ _ from_init distinct) regular t Hz).
  ring.
Qed.

Lemma dot_placed_placed (t t' : Point3) :
  p2 t = 0 -> p2 t' = 0 ->
  Np.dot (Np.sub (placed t) A) (Np.sub (placed t') A) = s / 3 * (s / 3) + Np.dot t t'.
Proof.
  intros Hz Hz'. rewrite !placed_minus_center.
  set (w := Np.mvdot (rodrigues u) t). set (w' := Np.mvdot (rodrigues u) t').
  replace (Np.dot (Np.add (Np.scale (s / 3) u) w) (Np.add (Np.scale (s / 3) u) w'))
    with (s / 3 * (s / 3) * Np.dot u u + s / 3 * Np.dot u w' + s / 3 * Np.dot u w
          + Np.dot w w')
    by (cbv [Np.dot Np.scale Np.add p0 p1 p2]; ring).
  unfold w, w', u.
  rewrite (valid_unit _ _ _ from_init distinct),
    !(rodrigues_plane_orth _ (valid_unit _ _ _ from_init distinct) regular) by assumption.
  rewrite (rodrigues_plane_dot _ (valid_unit _ _ _ from_init distinct) regular) by assumption.
  ring.
Qed.

Lemma angle_bonded_placed (t : Point3) :
  p2 t = 0 -> Np.dot t t = s * s / 3 ->
  find_angle (Np.sub B A) (Np.sub (placed t) A) = acos (- (1 / 2)) * 57.29577951308232.
Proof.
  intros Hz Ht.
  pose proof (valid_L_pos _ _ _ from_init distinct) as HL. fold L in HL.
  pose proof (valid_s_pos _ _ _ from_init distinct) as Hs. fold s in Hs.
  rewrite find_angle_eq, (dot_bonded_placed t Hz), norm_bonded_minus_center,
    (norm_placed_minus_center t Hz Ht).
  replace (- (L * (s / 3)) / (L * (2 / 3 * s))) with (- (1 / 2)) by (field; lra).
  reflexivity.
Qed.

Lemma angle_placed_placed (t t' : Point3) :
  p2 t = 0 -> Np.dot t t = s * s / 3 ->
  p2 t' = 0 -> Np.dot t' t' = s * s / 3 ->
  Np.dot t t' = - (s * s / 6) ->
  find_angle (Np.sub (placed t) A) (Np.sub (placed t') A)
  = acos (- (1 / 8)) * 57.29577951308232.
Proof.
  intros Hz Ht Hz' Ht' Hd.
  pose proof (valid_s_pos _ _ _ from_init distinct) as Hs. fold s in Hs.
  rewrite find_angle_eq, (dot_placed_placed t t' Hz Hz'), Hd,
    (norm_placed_minus_center t Hz Ht), (norm_placed_minus_center t' Hz' Ht').
  replace ((s / 3 * (s / 3) + - (s * s / 6)) / (2 / 3 * s * (2 / 3 * s)))
    with (- (1 / 8)) by (field; lra).
  reflexivity.
Qed.

Lemma placed_radial (t : Point3) :
  p2 t = 0 -> Np.dot t t = s * s / 3 ->
  Np.dot (Np.sub (placed t) c) u = 0 /\ distance (placed t) c = s / sqrt 3.
Proof.
  intros Hz Ht.
  pose proof (valid_s_pos _ _ _ from_init distinct) as Hs. fold s in Hs.
  assert (H3 : sqrt 3 * sqrt 3 = 3) by (apply sqrt_sqrt; lra).
  assert (H3p : 0 < sqrt 3) by (apply sqrt_lt_R0; lra).
  split.
  - rewrite placed_minus_centroid, dot_comm. unfold u.
    apply (rodrigues_plane_orth _ (valid_unit _ _ _ from_init distinct) regular t Hz).
  - apply sq_eq_nonneg.
    + apply distance_nonneg.
    + apply Rlt_le, Rdiv_lt_0_compat; assumption.
    + rewrite distance_sq, placed_minus_centroid. unfold u.
      rewrite (rodrigues_plane_dot _ (valid_unit _ _ _ from_init distinct) regular)
        by assumption.
      rewrite Ht.
      replace (s / sqrt 3 * (s / sqrt 3)) with (s * s / (sqrt 3 * sqrt 3)) by (field; lra).
      rewrite H3. reflexivity.
Qed.

Lemma placed_sum (T : Matrix3) :
  Np.add (Np.add (row0 T) (row1 T)) (row2 T) = Np.zeros ->
  Np.div (Np.add (Np.add (placed (row0 T)) (placed (row1 T))) (placed (row2 T))) 3 = c.
Proof.
  intros H. unfold placed. rewrite !place_eq.
  pose proof (mvdot_add3 (rodrigues u) (row0 T) (row1 T) (row2 T)) as Hw.
  rewrite H, mvdot_zeros in Hw.
  set (w0 := Np.mvdot (rodrigues u) (row0 T)) in *.
  set (w1 := Np.mvdot (rodrigues u) (row1 T)) in *.
  set (w2 := Np.mvdot (rodrigues u) (row2 T)) in *.
  pose proof (f_equal p0 Hw) as E0. pose proof (f_equal p1 Hw) as E1.
  pose proof (f_equal p2 Hw) as E2.
  cbv [Np.add Np.zeros p0 p1 p2] in E0, E1, E2.
  apply point3_eq; cbv [Np.div Np.add p0 p1 p2]; lra.
Qed.

End Returned.

Lemma acos_half_neg : acos (- (1 / 2)) = 2 * (PI / 3).
Proof.
  replace (- (1 / 2)) with (-1 / 2) by lra. rewrite <- cos_2PI3. apply acos_cos.
  pose proof PI_RGT_0. lra.
Qed.

(** X14. For every valid input the mean of the three returned points is
    the point that [find_centroid] returns. *)
Theorem X14_mean_of_points_is_centroid
    (path_to_data : string) (table : list LabeledAtom) (self : Complex) :
  init path_to_data table = Some self ->
  atom_to_be_functionalized_xyz self <> bonded_atom_xyz self ->
  cosine (bond_length_norm self) <> -1 ->
  exists s1 s2 s3 self',
    generate_substituent_vectors self = (Ok (s1, s2, s3), self') /\
    Np.div (Np.add (Np.add s1 s2) s3) 3 = fst (find_centroid self).
Proof.
  intros Hi Hd Hr.
  do 4 eexists. split; [exact (valid_result _ _ _ Hi Hr) |].
  rewrite find_centroid_eq. cbn [fst].
  apply (placed_sum self (Np.mscale (edge self) canonical_triangle)).
  apply scaled_rows_sum.
Qed.

Lemma X14_mean_of_points_is_centroid_witness :
  exists s1 s2 s3 self',
    generate_substituent_vectors methyl = (Ok (s1, s2, s3), self') /\
    Np.div (Np.add (Np.add s1 s2) s3) 3 = fst (find_centroid methyl).
Proof.
  exact (X14_mean_of_points_is_centroid "CH3.xyz" methyl_table methyl
           methyl_init methyl_distinct methyl_regular).
Defined.

(** X15. For every valid input whose bond direction keeps the distance
    1 + c >= 1/10000 from the singular direction, each returned point, seen
    from the point that [find_centroid] returns, is orthogonal to the bond
    direction and at distance s / sqrt(3), s = L*2*sqrt(2/3): the three
    points lie on a circle around the bond axis.  (Over the reals; the
    program is within rounding of it on these inputs.) *)
Theorem X15_points_on_circle_around_axis
    (path_to_data : string) (table : list LabeledAtom) (self : Complex) :
  init path_to_data table = Some self ->
  atom_to_be_functionalized_xyz self <> bonded_atom_xyz self ->
  1 / 10000 <= 1 + cosine (bond_length_norm self) ->
  exists s1 s2 s3 self',
    generate_substituent_vectors self = (Ok (s1, s2, s3), self') /\
    let centroid := fst (find_centroid self) in
    let u := bond_length_norm self in
    let s := distance (atom_to_be_functionalized_xyz self) (bonded_atom_xyz self)
             * 2 * sqrt (2 / 3) in
    (Np.dot (Np.sub s1 centroid) u = 0 /\ distance s1 centroid = s / sqrt 3) /\
    (Np.dot (Np.sub s2 centroid) u = 0 /\ distance s2 centroid = s / sqrt 3) /\
    (Np.dot (Np.sub s3 centroid) u = 0 /\ distance s3 centroid = s / sqrt 3).
Proof.
  intros Hi Hd Hm.
  assert (Hr : cosine (bond_length_norm self) <> -1) by lra.
  pose proof (scaled_row_plane (edge self)) as (Z0 & Z1 & Z2).
  pose proof (scaled_row_sq (edge self)) as (Q0 & Q1 & Q2).
  do 4 eexists. split; [exact (valid_result _ _ _ Hi Hr) |].
  cbv zeta. rewrite (distance_atoms _ _ _ Hi), find_centroid_eq. cbn [fst].
  replace (bond_norm self * 2 * sqrt (2 / 3)) with (edge self)
    by (unfold edge; replace (2.0 / 3.0) with (2 / 3) by lra; lra).
  repeat apply conj; apply (placed_radial _ _ _ Hi Hd Hr); assumption.
Qed.

Lemma X15_points_on_circle_around_axis_witness :
  exists s1 s2 s3 self',
    generate_substituent_vectors methyl = (Ok (s1, s2, s3), self') /\
    let centroid := fst (find_centroid methyl) in
    let u := bond_length_norm methyl in
    let s := distance (atom_to_be_functionalized_xyz methyl) (bonded_atom_xyz methyl)
             * 2 * sqrt (2 / 3) in
    (Np.dot (Np.sub s1 centroid) u = 0 /\ distance s1 centroid = s / sqrt 3) /\
    (Np.dot (Np.sub s2 centroid) u = 0 /\ distance s2 centroid = s / sqrt 3) /\
    (Np.dot (Np.sub s3 centroid) u = 0 /\ distance s3 centroid = s / sqrt 3).
Proof.
  exact (X15_points_on_circle_around_axis "CH3.xyz" methyl_table methyl
           methyl_init methyl_distinct methyl_margin).
Defined.

(** X16. For every valid input whose bond direction keeps the distance
    1 + c >= 1/10000 from the singular direction, [find_angle] at the
    central atom between the bonded atom and each returned point is
    2*pi/3 * 57.29577951308232, and between two returned points it is
    arccos(-1/8) * 57.29577951308232.  The quotients that [find_angle]
    hands to [np.arccos] here are -1/2 and -1/8, away from 1 and -1.  (Over
    the reals; the program is within rounding of it on these inputs.) *)
Theorem X16_angles_at_central_atom
    (path_to_data : string) (table : list LabeledAtom) (self : Complex) :
  init path_to_data table = Some self ->
  atom_to_be_functionalized_xyz self <> bonded_atom_xyz self ->
  1 / 10000 <= 1 + cosine (bond_length_norm self) ->
  exists s1 s2 s3 self',
    generate_substituent_vectors self = (Ok (s1, s2, s3), self') /\
    let A := atom_to_be_functionalized_xyz self in
    let B := bonded_atom_xyz self in
    find_angle (Np.sub B A) (Np.sub s1 A) = 2 * (PI / 3) * 57.29577951308232 /\
    find_angle (Np.sub B A) (Np.sub s2 A) = 2 * (PI / 3) * 57.29577951308232 /\
    find_angle (Np.sub B A) (Np.sub s3 A) = 2 * (PI / 3) * 57.29577951308232 /\
    find_angle (Np.sub s1 A) (Np.sub s2 A) = acos (- (1 / 8)) * 57.29577951308232 /\
    find_angle (Np.sub s1 A) (Np.sub s3 A) = acos (- (1 / 8)) * 57.29577951308232 /\
    find_angle (Np.sub s2 A) (Np.sub s3 A) = acos (- (1 / 8)) * 57.29577951308232.
Proof.
  intros Hi Hd Hm.
  assert (Hr : cosine (bond_length_norm self) <> -1) by lra.
  pose proof (scaled_row_plane (edge self)) as (Z0 & Z1 & Z2).
  pose proof (scaled_row_sq (edge self)) as (Q0 & Q1 & Q2).
  pose proof (scaled_row_dot (edge self)) as (D01 & D02 & D12).
  do 4 eexists. split; [exact (valid_result _ _ _ Hi Hr) |].
  cbv zeta. rewrite <- acos_half_neg.
  repeat apply conj.
  - apply (angle_bonded_placed _ _ _ Hi Hd Hr); assumption.
  - apply (angle_bonded_placed _ _ _ Hi Hd Hr); assumption.
  - apply (angle_bonded_placed _ _ _ Hi Hd Hr); assumption.
  - apply (angle_placed_placed _ _ _ Hi Hd Hr); assumption.
  - apply (angle_placed_placed _ _ _ Hi Hd Hr); assumption.
  - apply (angle_placed_placed _ _ _ Hi Hd Hr); assumption.
Qed.

Lemma X16_angles_at_central_atom_witness :
  exists s1 s2 s3 self',
    generate_substituent_vectors methyl = (Ok (s1, s2, s3), self') /\
    let A := atom_to_be_functionalized_xyz methyl in
    let B := bonded_atom_xyz methyl in
    find_angle (Np.sub B A) (Np.sub s1 A) = 2 * (PI / 3) * 57.29577951308232 /\
    find_angle (Np.sub B A) (Np.sub s2 A) = 2 * (PI / 3) * 57.29577951308232 /\
    find_angle (Np.sub B A) (Np.sub s3 A) = 2 * (PI / 3) * 57.29577951308232 /\
    find_angle (Np.sub s1 A) (Np.sub s2 A) = acos (- (1 / 8)) * 57.29577951308232 /\
    find_angle (Np.sub s1 A) (Np.sub s3 A) = acos (- (1 / 8)) * 57.29577951308232 /\
    find_angle (Np.sub s2 A) (Np.sub s3 A) = acos (- (1 / 8)) * 57.29577951308232.
Proof.
  exact (X16_angles_at_central_atom "CH3.xyz" methyl_table methyl
           methyl_init methyl_distinct methyl_margin).
Defined.

(** ** When the rotation is singular, and when it is the identity *)

Lemma init_cosine (path_to_data : string) (table : list LabeledAtom) (self : Complex) :
  init path_to_data table = Some self ->
  cosine (bond_length_norm self)
  = (p2 (atom_to_be_functionalized_xyz self) - p2 (bonded_atom_xyz self)) / bond_norm self.
Proof.
  intros Hi. rewrite cosine_eq, (init_bond_length_norm _ _ _ Hi). unfold bond_norm.
  rewrite (init_bond_length _ _ _ Hi). reflexivity.
Qed.

Lemma init_bond_norm_sq (path_to_data : string) (table : list LabeledAtom) (self : Complex) :
  init path_to_data table = Some self ->
  let A := atom_to_be_functionalized_xyz self in
  let B := bonded_atom_xyz self in
  bond_norm self * bond_norm self
  = (p0 A - p0 B) * (p0 A - p0 B) + (p1 A - p1 B) * (p1 A - p1 B)
    + (p2 A - p2 B) * (p2 A - p2 B).
Proof.
  intros Hi. cbv zeta. unfold bond_norm. rewrite norm_sq, (init_bond_length _ _ _ Hi).
  reflexivity.
Qed.

(** X19. When the bonded atom is straight above the central atom (same x,
    same y, larger z), the bond direction is (0,0,-1), c is -1 and
    [generate_substituent_vectors] raises [RotationMatrixError].  The
    program raises at positions beside these as well, where the rounded c
    is -1 ([Binary64.raises_beside_singular]). *)
Theorem X19_raises_when_bonded_atom_straight_above
    (path_to_data : string) (table : list LabeledAtom) (self : Complex) :
  init path_to_data table = Some self ->
  p0 (bonded_atom_xyz self) = p0 (atom_to_be_functionalized_xyz self) ->
  p1 (bonded_atom_xyz self) = p1 (atom_to_be_functionalized_xyz self) ->
  p2 (atom_to_be_functionalized_xyz self) < p2 (bonded_atom_xyz self) ->
  bond_length_norm self = mkPoint3 0 0 (-1) /\
  cosine (bond_length_norm self) = -1 /\
  fst (generate_substituent_vectors self) = Raise RotationMatrixError.
Proof.
  intros Hi Ex Ey Ez.
  pose proof (init_bond_norm_sq _ _ _ Hi) as HN. cbv zeta in HN.
  assert (HL : bond_norm self
               = p2 (bonded_atom_xyz self) - p2 (atom_to_be_functionalized_xyz self)).
  { apply sq_eq_nonneg; [apply norm_nonneg | lra |]. rewrite HN, Ex, Ey. ring. }
  assert (Hu : bond_length_norm self = mkPoint3 0 0 (-1)).
  { rewrite (init_bond_length_norm _ _ _ Hi). fold (bond_norm self). rewrite HL.
    rewrite (init_bond_length _ _ _ Hi).
    apply point3_eq; cbn [Np.div Np.sub p0 p1 p2]; [rewrite Ex | rewrite Ey |];
      field; lra. }
  assert (Hc : cosine (bond_length_norm self) = -1).
  { rewrite Hu, cosine_eq. reflexivity. }
  split; [exact Hu |]. split; [exact Hc |].
  rewrite (generate_raise _ Hc). reflexivity.
Qed.

Lemma X19_raises_when_bonded_atom_straight_above_witness :
  bond_length_norm singular = mkPoint3 0 0 (-1) /\
  cosine (bond_length_norm singular) = -1 /\
  fst (generate_substituent_vectors singular) = Raise RotationMatrixError.
Proof.
  apply (X19_raises_when_bonded_atom_straight_above "CH3.xyz" singular_table singular eq_refl);
    cbn [singular bonded_atom_xyz atom_to_be_functionalized_xyz p0 p1 p2];
    [reflexivity | reflexivity | lra].
Defined.

(** X18. When the bonded atom is straight below the central atom (same x,
    same y, smaller z), the bond direction is (0,0,1), the rotation matrix
    is the identity and the returned points are the point of
    [find_centroid] plus the rows of the scaled triangle. *)
Theorem X18_identity_rotation_when_bond_points_up
    (path_to_data : string) (table : list LabeledAtom) (self : Complex) :
  init path_to_data table = Some self ->
  p0 (bonded_atom_xyz self) = p0 (atom_to_be_functionalized_xyz self) ->
  p1 (bonded_atom_xyz self) = p1 (atom_to_be_functionalized_xyz self) ->
  p2 (bonded_atom_xyz self) < p2 (atom_to_be_functionalized_xyz self) ->
  bond_length_norm self = mkPoint3 0 0 1 /\
  rotation_matrix (bond_length_norm self) = Ok Np.eye /\
  let centroid := fst (find_centroid self) in
  let scaled := equilateral_triangle (snd (find_centroid self)) in
  fst (generate_substituent_vectors self)
  = Ok (Np.add centroid (row0 scaled), Np.add centroid (row1 scaled),
        Np.add centroid (row2 scaled)).
Proof.
  intros Hi Ex Ey Ez.
  pose proof (init_bond_norm_sq _ _ _ Hi) as HN. cbv zeta in HN.
  assert (HL : bond_norm self
               = p2 (atom_to_be_functionalized_xyz self) - p2 (bonded_atom_xyz self)).
  { apply sq_eq_nonneg; [apply norm_nonneg | lra |]. rewrite HN, Ex, Ey. ring. }
  assert (Hu : bond_length_norm self = mkPoint3 0 0 1).
  { rewrite (init_bond_length_norm _ _ _ Hi). fold (bond_norm self). rewrite HL.
    rewrite (init_bond_length _ _ _ Hi).
    apply point3_eq; cbn [Np.div Np.sub p0 p1 p2]; [rewrite Ex | rewrite Ey |];
      field; lra. }
  assert (Hc : cosine (bond_length_norm self) <> -1).
  { rewrite Hu, cosine_eq. cbn [p2]. lra. }
  assert (HR : rodrigues (mkPoint3 0 0 1) = Np.eye).
  { unfold rodrigues. rewrite cosine_eq, normal_vector_eq.
    cbv [Np.mdot Np.madd Np.mscale Np.col0 Np.col1 Np.col2 Np.eye v_x Np.cross
         Np.dot Np.add Np.scale p0 p1 p2 row0 row1 row2].
    f_equal; apply point3_eq; cbv [p0 p1 p2]; lra. }
  split; [exact Hu |]. split.
  - rewrite (rotation_matrix_ok _ Hc), Hu, HR. reflexivity.
  - cbv zeta. rewrite (generate_ok _ Hc). cbv zeta. cbn [fst].
    rewrite !place_eq, Hu, HR. do 2 f_equal; [f_equal |]; f_equal;
      apply point3_eq; cbv [Np.mvdot Np.eye Np.dot row0 row1 row2 p0 p1 p2]; ring.
Qed.

Lemma X18_identity_rotation_when_bond_points_up_witness :
  bond_length_norm hanging = mkPoint3 0 0 1 /\
  rotation_matrix (bond_length_norm hanging) = Ok Np.eye /\
  let centroid := fst (find_centroid hanging) in
  let scaled := equilateral_triangle (snd (find_centroid hanging)) in
  fst (generate_substituent_vectors hanging)
  = Ok (Np.add centroid (row0 scaled), Np.add centroid (row1 scaled),
        Np.add centroid (row2 scaled)).
Proof.
  apply (X18_identity_rotation_when_bond_points_up "CH3.xyz" hanging_table hanging eq_refl);
    cbn [hanging bonded_atom_xyz atom_to_be_functionalized_xyz p0 p1 p2];
    [reflexivity | reflexivity | lra].
Defined.

(** ** [write_xyz]: errors, the viewer, repeated calls, the script *)

Lemma singular_init : init "CH3.xyz" singular_table = Some singular.
Proof. reflexivity. Qed.

Lemma singular_dot_normal : Np.dot (bond_length_norm singular) (mkPoint3 0 0 1) = -1.
Proof. rewrite dot_normal. apply singular_cosine. reflexivity. Qed.

(** X20. When c = -1, [write_xyz] raises [RotationMatrixError] before it
    touches any file: the file system is the one it was given, while the
    triangle of the context has already been scaled by [find_centroid]. *)
Theorem X20_write_xyz_raises_before_writing
    (csv_label : string -> list ascii) (csv_float : R -> list ascii)
    (self : Complex) (fs : FileSystem) (filename : string)
    (a1 a2 a3 : string) (view_file save_file : bool) :
  Np.dot (bond_length_norm self) (mkPoint3 0 0 1) = -1 ->
  exists self' : Complex,
    write_xyz csv_label csv_float self fs filename a1 a2 a3 view_file save_file
    = (Raise RotationMatrixError, fs, self') /\
    same_but_triangle self self' /\
    equilateral_triangle self'
    = Np.mscale (Np.norm (bond_length self) * (2 * sqrt (2 / 3))) (equilateral_triangle self).
Proof.
  rewrite dot_normal. intros Hc. exists (snd (find_centroid self)).
  split; [| split].
  - unfold write_xyz. rewrite (generate_raise _ Hc). reflexivity.
  - rewrite find_centroid_eq. unfold same_but_triangle; cbn. repeat split; reflexivity.
  - rewrite find_centroid_eq. cbn [snd equilateral_triangle set_equilateral_triangle].
    unfold edge, bond_norm. replace (2.0 / 3.0) with (2 / 3) by lra.
    replace (2.0) with 2 by lra. reflexivity.
Qed.

Lemma X20_write_xyz_raises_before_writing_witness :
  exists self' : Complex,
    write_xyz plain_label zero_float singular old_file "CH4.xyz" "H" "H" "H" false false
    = (Raise RotationMatrixError, old_file, self') /\
    same_but_triangle singular self' /\
    equilateral_triangle self'
    = Np.mscale (Np.norm (bond_length singular) * (2 * sqrt (2 / 3)))
                (equilateral_triangle singular).
Proof.
  exact (X20_write_xyz_raises_before_writing plain_label zero_float singular old_file
           "CH4.xyz" "H" "H" "H" false false singular_dot_normal).
Defined.

Lemma universal_newlines_nil (s : list ascii) : universal_newlines s = [] -> s = [].
Proof.
  destruct s as [| c rest]; [reflexivity |]. simpl.
  destruct (Ascii.eqb c CR); [| discriminate].
  destruct rest as [| d rest]; [discriminate |].
  destruct (Ascii.eqb d LF); discriminate.
Qed.

Lemma init_rows (path_to_data : string) (table : list LabeledAtom) (self : Complex) :
  init path_to_data table = Some self ->
  exists functionalized bonded,
    nth_error (data_matrix self) (atom_to_be_functionalized_index self) = Some functionalized /\
    nth_error (data_matrix self) (bonded_atom_index self) = Some bonded /\
    xyz functionalized = atom_to_be_functionalized_xyz self /\
    xyz bonded = bonded_atom_xyz self /\
    bonded_atom_index self = 1%nat.
Proof.
  unfold init.
  destruct (nth_error table 0) as [a |] eqn:E0; [| discriminate].
  destruct (nth_error table 1) as [b |] eqn:E1; [| discriminate].
  intros H; injection H as <-. exists a, b. cbn. repeat split; assumption.
Qed.

(** X21. For a context built by [__init__], c <> -1 and an output file
    that is absent or holds 7-bit ASCII text (content that decodes when it
    is read back), [write_xyz] reaches its last statement, the call of the
    viewer, whatever the labels and the flags: the two row lookups do not
    raise [KeyError], and [lines[last]] does not raise [IndexError], because
    the lines read back are never none.  What the viewer then does is
    outside this program. *)
Theorem X21_write_xyz_reaches_the_viewer_call
    (csv_label : string -> list ascii) (csv_float : R -> list ascii)
    (path_to_data : string) (table : list LabeledAtom)
    (self : Complex) (fs : FileSystem) (filename : string)
    (a1 a2 a3 : string) (view_file save_file : bool) :
  init path_to_data table = Some self ->
  Np.dot (bond_length_norm self) (mkPoint3 0 0 1) <> -1 ->
  seven_bit (content fs filename) ->
  exists (fs' : FileSystem) (self' : Complex),
    write_xyz csv_label csv_float self fs filename a1 a2 a3 view_file save_file
    = (Ok (viewer_call filename view_file save_file), fs', self').
Proof.
  rewrite dot_normal. intros Hi Hc _.
  destruct (init_rows _ _ _ Hi) as (f & b & Hf & Hb & _).
  pose proof (generate_keeps self) as (_ & Hd & Hfi & _ & Hbi & _).
  unfold write_xyz. rewrite (generate_ok _ Hc) in *. cbv zeta in *. cbn [snd] in *.
  rewrite Hd, Hfi, Hbi, Hf, Hb.
  match goal with
  | |- context [readlines ?fs3 filename] => destruct (readlines fs3 filename) eqn:K
  end.
  - exfalso. unfold readlines in K. apply keepends_nil, universal_newlines_nil in K.
    unfold to_csv in K. rewrite !content_append in K.
    rewrite str_5 in K. do 2 (apply app_eq_nil in K; destruct K as [K _]).
    apply app_eq_nil in K. destruct K as [_ K]. discriminate.
  - eauto.
Qed.

Lemma X21_write_xyz_reaches_the_viewer_call_witness :
  exists (fs' : FileSystem) (self' : Complex),
    write_xyz plain_label zero_float methyl old_file "CH4.xyz" "H" "H" "H" true false
    = (Ok (viewer_call "CH4.xyz" true false), fs', self').
Proof.
  exact (X21_write_xyz_reaches_the_viewer_call plain_label zero_float "CH3.xyz" methyl_table
           methyl old_file "CH4.xyz" "H" "H" "H" true false
           methyl_init methyl_dot_normal old_text_seven_bit).
Defined.

(** X22. The five branches of lines 114-123 are three: with [view_file]
    and 'manually_generated' in the file name the viewer gets
    (filename, save_file, True); otherwise with [view_file] and
    'automatically_generated' in the name it gets (filename, save_file,
    False); otherwise it gets (filename, False).  [save_file] never selects
    the branch. *)
Theorem X22_viewer_call_three_cases (filename : string) (view_file save_file : bool) :
  viewer_call filename view_file save_file =
  if view_file && contains "manually_generated" filename
  then mkViewerCall filename save_file (Some true)
  else if view_file && contains "automatically_generated" filename
  then mkViewerCall filename save_file (Some false)
  else mkViewerCall filename false None.
Proof.
  unfold viewer_call.
  destruct (contains "manually_generated" filename),
    (contains "automatically_generated" filename), view_file, save_file; reflexivity.
Qed.

Section AfterFindCentroid.

Variables (path_to_data : string) (table : list LabeledAtom) (self : Complex).
Hypothesis from_init : init path_to_data table = Some self.
Hypothesis distinct : atom_to_be_functionalized_xyz self <> bonded_atom_xyz self.
Hypothesis regular : cosine (bond_length_norm self) <> -1.

Let A := atom_to_be_functionalized_xyz self.
Let u := bond_length_norm self.
Let s := edge self.
Let T2 := Np.mscale (s * s) canonical_triangle.
Let placed (t : Point3) : Point3 :=
  place (Np.add A (Np.scale (s / 3.0) u)) (rodrigues u) t.

Lemma after_find_centroid_result :
  exists self' : Complex,
    generate_substituent_vectors (snd (find_centroid self))
    = (Ok (placed (row0 T2), placed (row1 T2), placed (row2 T2)), self') /\
    same_but_triangle self self'.
Proof.
  eexists. split.
  - rewrite generate_ok by exact regular. rewrite !find_centroid_eq.
    cbv zeta. cbn [fst snd equilateral_triangle set_equilateral_triangle].
    rewrite (init_triangle _ _ _ from_init), mscale_mscale. reflexivity.
  - unfold same_but_triangle. cbn. repeat split; reflexivity.
Qed.

Lemma after_find_centroid_side (t t' : Point3) :
  p2 t = 0 -> p2 t' = 0 -> Np.dot (Np.sub t t') (Np.sub t t') = s * s * (s * s) ->
  distance (placed t) (placed t') = s * s.
Proof.
  intros Hz Hz' Ht.
  pose proof (valid_s_pos _ _ _ from_init distinct) as Hs. fold s in Hs.
  apply sq_eq_nonneg; [apply distance_nonneg | nra |].
  rewrite distance_sq. unfold placed.
  rewrite (sq_dist_placed u (valid_unit _ _ _ from_init distinct) regular
             A (s / 3.0) t t' Hz Hz').
  exact Ht.
Qed.

End AfterFindCentroid.

(** X24. When [find_centroid] has been called once on a valid context
    before [generate_substituent_vectors], as the script under [__main__]
    does, and the bond direction keeps the distance 1 + c >= 1/10000 from
    the singular direction, the triangle is scaled twice and the returned
    points are s*s apart from one another, s = L*2*sqrt(2/3), where the
    points of a fresh context are s apart.  (Over the reals; the program is
    within rounding of it on these inputs.) *)
Theorem X24_points_after_an_earlier_find_centroid
    (path_to_data : string) (table : list LabeledAtom) (self : Complex) :
  init path_to_data table = Some self ->
  atom_to_be_functionalized_xyz self <> bonded_atom_xyz self ->
  1 / 10000 <= 1 + cosine (bond_length_norm self) ->
  exists w1 w2 w3 self',
    generate_substituent_vectors (snd (find_centroid self)) = (Ok (w1, w2, w3), self') /\
    let s := distance (atom_to_be_functionalized_xyz self) (bonded_atom_xyz self)
             * 2 * sqrt (2 / 3) in
    distance w1 w2 = s * s /\ distance w1 w3 = s * s /\ distance w2 w3 = s * s.
Proof.
  intros Hi Hd Hm.
  assert (Hr : cosine (bond_length_norm self) <> -1) by lra.
  destruct (after_find_centroid_result _ _ _ Hi Hr) as (self' & Hg & _).
  pose proof (scaled_row_plane (edge self * edge self)) as (Z0 & Z1 & Z2).
  pose proof (scaled_side_sq (edge self * edge self)) as (S01 & S02 & S12).
  do 4 eexists. split; [exact Hg |].
  cbv zeta. rewrite (distance_atoms _ _ _ Hi).
  replace (bond_norm self * 2 * sqrt (2 / 3)) with (edge self)
    by (unfold edge; replace (2.0 / 3.0) with (2 / 3) by lra; lra).
  repeat apply conj; apply (after_find_centroid_side _ _ _ Hi Hd Hr); assumption.
Qed.

Lemma X24_points_after_an_earlier_find_centroid_witness :
  exists w1 w2 w3 self',
    generate_substituent_vectors (snd (find_centroid methyl)) = (Ok (w1, w2, w3), self') /\
    let s := distance (atom_to_be_functionalized_xyz methyl) (bonded_atom_xyz methyl)
             * 2 * sqrt (2 / 3) in
    distance w1 w2 = s * s /\ distance w1 w3 = s * s /\ distance w2 w3 = s * s.
Proof.
  exact (X24_points_after_an_earlier_find_centroid "CH3.xyz" methyl_table methyl
           methyl_init methyl_distinct methyl_margin).
Defined.

Lemma keepends_glued (h1 h2 a b c d e h1' h2' a' b' c' d' e' : list ascii) :
  no_line_end h1 -> no_line_end h2 -> no_line_end a -> no_line_end b ->
  no_line_end c -> no_line_end d -> no_line_end e ->
  no_line_end h1' -> no_line_end h2' -> no_line_end a' -> no_line_end b' ->
  no_line_end c' -> no_line_end d' -> no_line_end e' -> e' <> [] ->
  keepends ((h1 ++ [LF] ++ h2 ++ [LF] ++ a ++ [LF] ++ b ++ [LF] ++ c ++ [LF] ++ d ++ [LF] ++ e)
            ++ (h1' ++ [LF] ++ h2' ++ [LF] ++ a' ++ [LF] ++ b' ++ [LF] ++ c' ++ [LF]
                ++ d' ++ [LF] ++ e'))
  = [h1 ++ [LF]; h2 ++ [LF]; a ++ [LF]; b ++ [LF]; c ++ [LF]; d ++ [LF];
     (e ++ h1') ++ [LF];
     h2' ++ [LF]; a' ++ [LF]; b' ++ [LF]; c' ++ [LF]; d' ++ [LF]; e'].
Proof.
  intros. rewrite <- !app_assoc. cbn [app].
  rewrite 6 keepends_cons_line by assumption.
  rewrite (app_assoc e h1').
  rewrite keepends_cons_line by (apply no_line_end_app; assumption).
  rewrite 5 keepends_cons_line by assumption.
  rewrite keepends_last_line by assumption. rewrite <- !app_assoc. reflexivity.
Qed.

Section WrittenTwice.

Variable csv_label : string -> list ascii.
Variable csv_float : R -> list ascii.
Hypothesis csv_float_no_line_end : forall x : R, no_line_end (csv_float x).

Variables (self : Complex) (fs : FileSystem) (filename : string).
Variables (a1 a2 a3 : string) (view_file save_file : bool).
Variables (functionalized bonded : LabeledAtom).

Hypothesis regular : cosine (bond_length_norm self) <> -1.
Hypothesis row_functionalized :
  nth_error (data_matrix self) (atom_to_be_functionalized_index self) = Some functionalized.
Hypothesis row_bonded :
  nth_error (data_matrix self) (bonded_atom_index self) = Some bonded.
Hypothesis label_bonded : no_line_end (csv_label (atom bonded)).
Hypothesis label_functionalized : no_line_end (csv_label (atom functionalized)).
Hypothesis label_1 : no_line_end (csv_label a1).
Hypothesis label_2 : no_line_end (csv_label a2).
Hypothesis label_3 : no_line_end (csv_label a3).
Hypothesis fresh_file : content fs filename = [].

Let block (v1 v2 v3 : Point3) : list ascii :=
  xyz_block csv_label csv_float (bonded_atom_index self) bonded functionalized
            (mkAtom a1 v1) (mkAtom a2 v2) (mkAtom a3 v3).

Lemma block_no_CR (v1 v2 v3 : Point3) : no_CR (block v1 v2 v3).
Proof.
  unfold block, xyz_block.
  repeat apply no_CR_app;
    first [apply no_CR_LF
          | apply no_line_end_no_CR;
            auto using str_no_line_end, no_line_end_space, csv_row_no_line_end].
Qed.

Lemma written_twice :
  exists v1 v2 v3 w1 w2 w3 (call : ViewerCall) (fs2 : FileSystem) (self2 : Complex),
    fst (generate_substituent_vectors self) = Ok (v1, v2, v3) /\
    fst (generate_substituent_vectors (snd (generate_substituent_vectors self)))
    = Ok (w1, w2, w3) /\
    write_xyz_twice csv_label csv_float self fs filename a1 a2 a3 view_file save_file
    = (Ok call, fs2, self2) /\
    fs2 filename = Some (block v1 v2 v3 ++ block w1 w2 w3).
Proof.
  pose proof (generate_keeps self) as (_ & Hd & Hfi & _ & Hbi & _ & _ & Hu).
  set (self1 := snd (generate_substituent_vectors self)) in *.
  assert (Hg1 : exists v1 v2 v3, fst (generate_substituent_vectors self) = Ok (v1, v2, v3)).
  { rewrite (generate_ok _ regular). cbn [fst]. eauto. }
  assert (Hg2 : exists w1 w2 w3, fst (generate_substituent_vectors self1) = Ok (w1, w2, w3)).
  { rewrite generate_ok by (rewrite Hu; exact regular). cbn [fst]. eauto. }
  destruct Hg1 as (v1 & v2 & v3 & Hg1). destruct Hg2 as (w1 & w2 & w3 & Hg2).
  destruct (write_xyz_file csv_label csv_float csv_float_no_line_end self fs filename
              a1 a2 a3 view_file save_file v1 v2 v3 functionalized bonded
              Hg1 row_functionalized row_bonded
              label_bonded label_functionalized label_1 label_2 label_3)
    as (fs1 & Hw1 & Hc1 & _).
  fold self1 in Hw1. rewrite fresh_file in Hc1. cbn [universal_newlines app] in Hc1.
  assert (Hf1 : nth_error (data_matrix self1) (atom_to_be_functionalized_index self1)
                = Some functionalized) by (rewrite Hd, Hfi; exact row_functionalized).
  assert (Hb1 : nth_error (data_matrix self1) (bonded_atom_index self1) = Some bonded)
    by (rewrite Hd, Hbi; exact row_bonded).
  destruct (write_xyz_file csv_label csv_float csv_float_no_line_end self1 fs1 filename
              a1 a2 a3 view_file save_file w1 w2 w3 functionalized bonded
              Hg2 Hf1 Hb1
              label_bonded label_functionalized label_1 label_2 label_3)
    as (fs2 & Hw2 & Hc2 & _).
  exists v1, v2, v3, w1, w2, w3. do 3 eexists.
  split; [exact Hg1 |]. split; [exact Hg2 |]. split.
  - unfold write_xyz_twice. rewrite Hw1. exact Hw2.
  - rewrite Hc2. unfold content. rewrite Hc1, Hbi.
    fold (block v1 v2 v3). fold (block w1 w2 w3).
    rewrite (universal_newlines_no_CR _ (block_no_CR v1 v2 v3)). reflexivity.
Qed.

Lemma written_twice_lines (v1 v2 v3 w1 w2 w3 : Point3) :
  keepends (block v1 v2 v3 ++ block w1 w2 w3) =
  [str 5 ++ [LF]; str (bonded_atom_index self) ++ [LF];
   csv_row csv_label csv_float bonded ++ [LF];
   csv_row csv_label csv_float functionalized ++ [LF];
   csv_row csv_label csv_float (mkAtom a1 v1) ++ [LF];
   csv_row csv_label csv_float (mkAtom a2 v2) ++ [LF];
   (csv_row csv_label csv_float (mkAtom a3 v3) ++ str 5) ++ [LF];
   str (bonded_atom_index self) ++ [LF];
   csv_row csv_label csv_float bonded ++ [LF];
   csv_row csv_label csv_float functionalized ++ [LF];
   csv_row csv_label csv_float (mkAtom a1 w1) ++ [LF];
   csv_row csv_label csv_float (mkAtom a2 w2) ++ [LF];
   csv_row csv_label csv_float (mkAtom a3 w3)].
Proof.
  unfold block, xyz_block.
  apply keepends_glued;
    auto using str_no_line_end, csv_row_no_line_end, csv_row_not_empty.
Qed.

End WrittenTwice.

(** X23. [write_xyz] called twice in a row for the same file, which did not
    exist or was empty: both calls return, the file holds the block of the
    first call followed at once by the block of the second, and since the
    first block ends without a line end, the count line "5" of the second
    call stands on the line of the last record of the first.  The file has
    13 lines, not 14. *)
Theorem X23_second_call_glues_its_header
    (csv_label : string -> list ascii) (csv_float : R -> list ascii)
    (self : Complex) (fs : FileSystem) (filename : string)
    (a1 a2 a3 : string) (view_file save_file : bool)
    (functionalized bonded : LabeledAtom) :
  (forall x : R, no_line_end (csv_float x)) ->
  Np.dot (bond_length_norm self) (mkPoint3 0 0 1) <> -1 ->
  nth_error (data_matrix self) (atom_to_be_functionalized_index self) = Some functionalized ->
  nth_error (data_matrix self) (bonded_atom_index self) = Some bonded ->
  no_line_end (csv_label (atom bonded)) ->
  no_line_end (csv_label (atom functionalized)) ->
  no_line_end (csv_label a1) -> no_line_end (csv_label a2) -> no_line_end (csv_label a3) ->
  content fs filename = [] ->
  exists v1 v2 v3 w1 w2 w3 (call : ViewerCall) (fs2 : FileSystem) (self2 : Complex)
         (text : list ascii),
    fst (generate_substituent_vectors self) = Ok (v1, v2, v3) /\
    fst (generate_substituent_vectors (snd (generate_substituent_vectors self)))
    = Ok (w1, w2, w3) /\
    write_xyz_twice csv_label csv_float self fs filename a1 a2 a3 view_file save_file
    = (Ok call, fs2, self2) /\
    fs2 filename = Some text /\
    text = xyz_block csv_label csv_float (bonded_atom_index self) bonded functionalized
                     (mkAtom a1 v1) (mkAtom a2 v2) (mkAtom a3 v3)
           ++ xyz_block csv_label csv_float (bonded_atom_index self) bonded functionalized
                        (mkAtom a1 w1) (mkAtom a2 w2) (mkAtom a3 w3) /\
    List.length (keepends text) = 13%nat /\
    nth_error (keepends text) 6
    = Some ((csv_row csv_label csv_float (mkAtom a3 v3) ++ str 5) ++ [LF]).
Proof.
  rewrite dot_normal. intros Hfl Hr Hf Hb Lb Lf L1 L2 L3 Hfresh.
  destruct (written_twice csv_label csv_float Hfl self fs filename a1 a2 a3
              view_file save_file functionalized bonded Hr Hf Hb Lb Lf L1 L2 L3 Hfresh)
    as (v1 & v2 & v3 & w1 & w2 & w3 & call & fs2 & self2 & Hg1 & Hg2 & Hw & Hc).
  exists v1, v2, v3, w1, w2, w3, call, fs2, self2. eexists.
  split; [exact Hg1 |]. split; [exact Hg2 |]. split; [exact Hw |].
  split; [exact Hc |]. split; [reflexivity |].
  rewrite (written_twice_lines csv_label csv_float Hfl self a1 a2 a3
             functionalized bonded Lb Lf L1 L2 L3).
  split; reflexivity.
Qed.

Lemma X23_second_call_glues_its_header_witness :
  exists v1 v2 v3 w1 w2 w3 (call : ViewerCall) (fs2 : FileSystem) (self2 : Complex)
         (text : list ascii),
    fst (generate_substituent_vectors methyl) = Ok (v1, v2, v3) /\
    fst (generate_substituent_vectors (snd (generate_substituent_vectors methyl)))
    = Ok (w1, w2, w3) /\
    write_xyz_twice plain_label zero_float methyl no_files "CH4.xyz" "H" "H" "H" false false
    = (Ok call, fs2, self2) /\
    fs2 "CH4.xyz"%string = Some text /\
    text = xyz_block plain_label zero_float (bonded_atom_index methyl)
                     (mkAtom "H" (mkPoint3 1 0 0)) (mkAtom "C" (mkPoint3 0 0 0))
                     (mkAtom "H" v1) (mkAtom "H" v2) (mkAtom "H" v3)
           ++ xyz_block plain_label zero_float (bonded_atom_index methyl)
                        (mkAtom "H" (mkPoint3 1 0 0)) (mkAtom "C" (mkPoint3 0 0 0))
                        (mkAtom "H" w1) (mkAtom "H" w2) (mkAtom "H" w3) /\
    List.length (keepends text) = 13%nat /\
    nth_error (keepends text) 6
    = Some ((csv_row plain_label zero_float (mkAtom "H" v3) ++ str 5) ++ [LF]).
Proof.
  exact (X23_second_call_glues_its_header plain_label zero_float methyl no_files "CH4.xyz"
           "H" "H" "H" false false
           (mkAtom "C" (mkPoint3 0 0 0)) (mkAtom "H" (mkPoint3 1 0 0))
           zero_float_no_line_end methyl_dot_normal eq_refl eq_refl
           plain_H_no_line_end plain_C_no_line_end
           plain_H_no_line_end plain_H_no_line_end plain_H_no_line_end eq_refl).
Defined.


